(** * TypeMaster Pro (src/App.tsx): statistics engine and session state machine

    A shallow embedding of the business logic of the [TypingSpeedApp]
    component: [calculateStats], [handleInputChange], [resetTest],
    [pauseTest], [startTest], [handleKeyDown], the interval tick and the
    view functions [getCharacterClass] and [formatTime].

    Conventions of the embedding.
    - The component is embedded twice.  In the first embedding a JavaScript
      [number] is a real number ([R]) with exact arithmetic; it carries the
      state machine and the statements that bound or compare results.  In
      the second, the module [F64], a [number] is a binary64 [float] and
      every operation rounds as the program's does; it carries the
      statements that fix the value of a rounded result, which at a tie
      depends on the last bit of a quotient.  Numbers that only ever hold a
      loop counter or a [length] are [nat] in both.
    - A JavaScript string is a [string]; each [ascii] stands for one UTF-16
      code unit, so [String.length] is [.length] and [String.get] is indexing
      (with [None] for [undefined]).
    - React state is one record, [AppState]; a handler is a function from the
      state captured by the current render to the state of the next render.
      Values the handler reads from the outside world ([Date.now()],
      [new Date()], [Math.random()]) are arguments.
    - Lines 105-113 of App.tsx repeat the first lines of [handleInputChange]
      (lines 192-199) in the middle of [calculateStats]; the body of
      [calculateStats] is lines 94-104 followed by lines 114-140. *)

From Stdlib Require Import String Ascii List Bool Arith ZArith Reals Lra Lia Psatz.
From Stdlib Require Import DecimalString DecimalZ.
From Stdlib Require Floats.
Import ListNotations.

Set Implicit Arguments.

(** ** JavaScript primitives *)

Module JS.

Local Open Scope R_scope.

(** [Math.floor]. *)
Definition Math_floor (x : R) : Z := Int_part x.

(** [Math.round]: the nearest integer, ties towards plus infinity. *)
Definition Math_round (x : R) : Z := Math_floor (x + / 2).

(** [c ? a : b] on a comparison of numbers. *)
Definition gtb (x y : R) : bool := if Rlt_dec y x then true else false.
Definition geb (x y : R) : bool := if Rle_dec y x then true else false.
Definition strict_eqb (x y : R) : bool := if Req_dec_T x y then true else false.

(** [a[i]] for a number [i]: [undefined] outside the array. *)
Definition Array_at (A : Type) (a : list A) (i : Z) : option A :=
  if (i <? 0)%Z then None else nth_error a (Z.to_nat i).

(** [arr.reduce(f, init)]. *)
Definition reduce (A B : Type) (f : B -> A -> B) (init : B) (arr : list A) : B :=
  fold_left f arr init.

(** [s[i] === t[i]]: both sides are a one-unit string or [undefined]. *)
Definition index_strict_eqb (s t : string) (i : nat) : bool :=
  match String.get i s, String.get i t with
  | Some a, Some b => Ascii.eqb a b
  | None, None => true
  | _, _ => false
  end.

(** [s.split(sep)] for a separator of one code unit. *)
Fixpoint split (sep : ascii) (s : string) : list string :=
  match s with
  | EmptyString => [EmptyString]
  | String c rest =>
      if Ascii.eqb c sep then EmptyString :: split sep rest
      else match split sep rest with
           | w :: ws => String c w :: ws
           | [] => [String c EmptyString]
           end
  end.

(** White space removed by [s.trim()], among the code units below 256. *)
Definition is_white_space (c : ascii) : bool :=
  let n := nat_of_ascii c in
  ((9 <=? n) && (n <=? 13) || (n =? 32) || (n =? 160))%nat.

Fixpoint trim_start (s : string) : string :=
  match s with
  | EmptyString => EmptyString
  | String c rest => if is_white_space c then trim_start rest else s
  end.

Fixpoint trim_end (s : string) : string :=
  match s with
  | EmptyString => EmptyString
  | String c rest =>
      match trim_end rest with
      | EmptyString => if is_white_space c then EmptyString else String c EmptyString
      | r => String c r
      end
  end.

Definition trim (s : string) : string := trim_end (trim_start s).

End JS.

Import JS.

(** ** Data model (App.tsx, lines 5-29) *)

Inductive TestState := idle | active | completed | paused.
Inductive Difficulty := easy | medium | hard | custom.
Inductive TestMode := time | words | quote.

Definition TestState_eqb (a b : TestState) : bool :=
  match a, b with
  | idle, idle | active, active | completed, completed | paused, paused => true
  | _, _ => false
  end.

Definition TestMode_eqb (a b : TestMode) : bool :=
  match a, b with
  | time, time | words, words | quote, quote => true
  | _, _ => false
  end.

Definition Difficulty_eqb (a b : Difficulty) : bool :=
  match a, b with
  | easy, easy | medium, medium | hard, hard | custom, custom => true
  | _, _ => false
  end.

Module TypingStats.
Record t := mk {
  wpm : Z;
  rawWpm : Z;
  accuracy : R;
  correctChars : nat;
  incorrectChars : nat;
  totalChars : nat;
  timeElapsed : R;
  consistency : Z
}.
End TypingStats.

Module TestResult.
(** [interface TestResult extends TypingStats]: the inherited fields are
    the record [stats], filled by the spread [...currentStats]. *)
Record t := mk {
  stats : TypingStats.t;
  timestamp : R;
  difficulty : Difficulty;
  textLength : nat
}.
End TestResult.

Module WpmHistory.
Record t := mk {
  time : R;
  wpm : R
}.
End WpmHistory.

(** ** Sample texts (lines 31-53) *)

Module sampleTexts.
Local Open Scope string_scope.

Definition easy : list string := [
  "The quick brown fox jumps over the lazy dog. This sentence contains every letter of the alphabet.";
  "A journey of a thousand miles begins with a single step. Every great achievement starts small.";
  "Life is what happens when you are busy making other plans. Stay present in the moment.";
  "The only way to do great work is to love what you do. Passion drives excellence."
].

Definition medium : list string := [
  "Technology has revolutionized the way we communicate and interact with the world around us. From smartphones to social media, digital innovation continues to shape our daily experiences.";
  "Success is not final, failure is not fatal: it is the courage to continue that counts. Resilience and perseverance are the keys to overcoming obstacles.";
  "The best time to plant a tree was twenty years ago. The second best time is now. Taking action today is always better than waiting for tomorrow.";
  "Innovation distinguishes between a leader and a follower in today's competitive landscape. Creative thinking and bold decisions separate the best from the rest."
].

Definition hard : list string := [
  "Pseudopseudohypoparathyroidism is an extremely rare genetic disorder that affects calcium and phosphate metabolism, characterized by resistance to parathyroid hormone signaling pathways.";
  "The phenomenon of quantum entanglement demonstrates the fundamental interconnectedness of particles across vast distances, challenging our classical understanding of reality and causation.";
  "Antidisestablishmentarianism represents the philosophical opposition to the withdrawal of state support from established religious institutions, particularly in 19th-century Britain.";
  "Supercalifragilisticexpialidocious exemplifies the creative potential of linguistic construction through morphological blending, demonstrating how language can be playfully manipulated."
].

Definition custom : list string := [
  "Create your own custom text by selecting this option and entering your preferred typing material."
].

End sampleTexts.

(** [sampleTexts[difficulty]]; every key is present, so the fallback
    [|| sampleTexts.medium] of line 89 is never taken. *)
Definition sampleTexts_lookup (d : Difficulty) : list string :=
  match d with
  | easy => sampleTexts.easy
  | medium => sampleTexts.medium
  | hard => sampleTexts.hard
  | custom => sampleTexts.custom
  end.

(** ** Statistics ([calculateStats], lines 93-104 and 114-141)

    The arithmetic of this section is exact.  The character scoring is the
    program's; a quotient or a root is the real number the program's double
    approximates, so the statements made on these definitions bound and
    compare results, and the value of a rounded result is stated on
    [F64.calculateStats] below. *)

Section Stats.

Local Open Scope R_scope.

(** The body of the [for] loop of lines 98-104, on the pair
    [(correctChars, incorrectChars)]. *)
Definition score_step (input text : string) (acc : nat * nat) (i : nat) : nat * nat :=
  let '(correctChars, incorrectChars) := acc in
  if (i <? String.length text)%nat && index_strict_eqb input text i
  then (S correctChars, incorrectChars)
  else (correctChars, S incorrectChars).

(** The loop itself: [i] runs over [0 .. totalChars - 1]. *)
Definition score_chars (input text : string) : nat * nat :=
  let totalChars := String.length input in
  fold_left (score_step input text) (seq 0 totalChars) (0%nat, 0%nat).

(** Line 114. *)
Definition accuracy_raw (correctChars totalChars : nat) : R :=
  if (0 <? totalChars)%nat then (INR correctChars / INR totalChars) * 100 else 0.

(** Lines 115-119. *)
Definition wordsTyped (totalChars : nat) : R := INR totalChars / 5.

Definition timeInMinutes (timeElapsed : R) : R := timeElapsed / 60.

Definition grossWpm (totalChars : nat) (timeElapsed : R) : Z :=
  if gtb (timeInMinutes timeElapsed) 0
  then Math_round (wordsTyped totalChars / timeInMinutes timeElapsed)
  else 0%Z.

Definition errorsPerMinute (incorrectChars : nat) (timeElapsed : R) : R :=
  if gtb (timeInMinutes timeElapsed) 0
  then INR incorrectChars / timeInMinutes timeElapsed
  else 0.

Definition netWpm (totalChars incorrectChars : nat) (timeElapsed : R) : Z :=
  Z.max 0 (Math_round (IZR (grossWpm totalChars timeElapsed)
                       - errorsPerMinute incorrectChars timeElapsed)).

(** Lines 121-129: the consistency score before the final [Math.round]. *)
Definition consistency_raw (wpmHist : list WpmHistory.t) : R :=
  if (1 <? List.length wpmHist)%nat then
    let wpmValues := map WpmHistory.wpm wpmHist in
    let mean := reduce (fun a b => a + b) 0 wpmValues / INR (List.length wpmValues) in
    let variance :=
      reduce (fun a b => a + (b - mean) ^ 2) 0 wpmValues / INR (List.length wpmValues) in
    let stdDev := sqrt variance in
    Rmax 0 (Rmin 100 (100 - stdDev * 2))
  else 100.

Definition calculateStats (input text : string) (timeElapsed : R)
           (wpmHist : list WpmHistory.t) : TypingStats.t :=
  let totalChars := String.length input in
  let '(correctChars, incorrectChars) := score_chars input text in
  let accuracy := accuracy_raw correctChars totalChars in
  let consistency := consistency_raw wpmHist in
  {| TypingStats.wpm := netWpm totalChars incorrectChars timeElapsed;
     TypingStats.rawWpm := grossWpm totalChars timeElapsed;
     TypingStats.accuracy := IZR (Math_round (accuracy * 100)) / 100;
     TypingStats.correctChars := correctChars;
     TypingStats.incorrectChars := incorrectChars;
     TypingStats.totalChars := totalChars;
     TypingStats.timeElapsed := timeElapsed;
     TypingStats.consistency := Math_round consistency |}.

End Stats.

(** ** Component state (lines 56-83) *)

Record AppState := mkAppState {
  testText : string;
  customText : string;
  userInput : string;
  testState : TestState;
  difficulty : Difficulty;
  testMode : TestMode;
  targetTime : R;
  targetWords : R;
  startTime : R;
  currentTime : R;
  wpmHistory : list WpmHistory.t;
  stats : TypingStats.t;
  testResults : list TestResult.t;
  currentCharIndex : nat;
  showSettings : bool;
  capsLockWarning : bool;
  (** [timerRef.current]: the handle of the last interval, [None] for [null]. *)
  timerRef : option positive;
  (** The intervals the browser still fires: [setInterval] adds a handle,
      [clearInterval] removes it. *)
  intervals : list positive
}.

Definition initialStats : TypingStats.t :=
  {| TypingStats.wpm := 0; TypingStats.rawWpm := 0; TypingStats.accuracy := 0%R;
     TypingStats.correctChars := 0; TypingStats.incorrectChars := 0;
     TypingStats.totalChars := 0; TypingStats.timeElapsed := 0%R;
     TypingStats.consistency := 0 |}.

Definition initialState : AppState :=
  {| testText := EmptyString; customText := EmptyString; userInput := EmptyString;
     testState := idle; difficulty := medium; testMode := quote;
     targetTime := 60%R; targetWords := 50%R; startTime := 0%R; currentTime := 0%R;
     wpmHistory := []; stats := initialStats; testResults := [];
     currentCharIndex := 0; showSettings := false; capsLockWarning := false;
     timerRef := None; intervals := [] |}.

(** *** The browser's interval table *)

Definition setInterval (live : list positive) : positive * list positive :=
  let h := Pos.succ (fold_right Pos.max 1%positive live) in (h, h :: live).

Definition clearInterval (h : positive) (live : list positive) : list positive :=
  filter (fun k => negb (Pos.eqb k h)) live.

(** [if (timerRef.current) { clearInterval(timerRef.current); }] *)
Definition clearTimer (ref : option positive) (live : list positive) : list positive :=
  match ref with
  | Some h => clearInterval h live
  | None => live
  end.

(** ** Handlers *)

Section Handlers.

Local Open Scope R_scope.

(** [generateText] (lines 85-91); [rnd] is the value of [Math.random()].
    For [0 <= rnd < 1] the index is inside [texts]. *)
Definition generateText (customText : string) (rnd : R) (difficulty : Difficulty) : string :=
  if Difficulty_eqb difficulty custom && negb (String.eqb (trim customText) EmptyString)
  then trim customText
  else
    let texts := sampleTexts_lookup difficulty in
    match Array_at texts (Math_floor (rnd * INR (List.length texts))) with
    | Some t => t
    | None => EmptyString
    end.

(** [startTest] (lines 143-160); [now1] and [now2] are the two readings of
    [Date.now()]. *)
Definition startTest (rnd now1 now2 : R) (s : AppState) : AppState :=
  let newText := generateText (customText s) rnd (difficulty s) in
  let '(h, live) := setInterval (intervals s) in
  {| testText := newText; customText := customText s; userInput := EmptyString;
     testState := active; difficulty := difficulty s; testMode := testMode s;
     targetTime := targetTime s; targetWords := targetWords s;
     startTime := now1; currentTime := now2;
     wpmHistory := []; stats := stats s; testResults := testResults s;
     currentCharIndex := 0; showSettings := showSettings s;
     capsLockWarning := capsLockWarning s;
     timerRef := Some h; intervals := live |}.

(** The callback of the interval [h]: [setCurrentTime(Date.now())]; it
    fires only while the browser still holds [h]. *)
Definition tick (h : positive) (now : R) (s : AppState) : AppState :=
  if existsb (Pos.eqb h) (intervals s) then
    {| testText := testText s; customText := customText s; userInput := userInput s;
       testState := testState s; difficulty := difficulty s; testMode := testMode s;
       targetTime := targetTime s; targetWords := targetWords s;
       startTime := startTime s; currentTime := now;
       wpmHistory := wpmHistory s; stats := stats s; testResults := testResults s;
       currentCharIndex := currentCharIndex s; showSettings := showSettings s;
       capsLockWarning := capsLockWarning s;
       timerRef := timerRef s; intervals := intervals s |}
  else s.

(** [pauseTest] (lines 162-177). *)
Definition pauseTest (s : AppState) : AppState :=
  match testState s with
  | active =>
      {| testText := testText s; customText := customText s; userInput := userInput s;
         testState := paused; difficulty := difficulty s; testMode := testMode s;
         targetTime := targetTime s; targetWords := targetWords s;
         startTime := startTime s; currentTime := currentTime s;
         wpmHistory := wpmHistory s; stats := stats s; testResults := testResults s;
         currentCharIndex := currentCharIndex s; showSettings := showSettings s;
         capsLockWarning := capsLockWarning s;
         timerRef := timerRef s; intervals := clearTimer (timerRef s) (intervals s) |}
  | paused =>
      let '(h, live) := setInterval (intervals s) in
      {| testText := testText s; customText := customText s; userInput := userInput s;
         testState := active; difficulty := difficulty s; testMode := testMode s;
         targetTime := targetTime s; targetWords := targetWords s;
         startTime := startTime s; currentTime := currentTime s;
         wpmHistory := wpmHistory s; stats := stats s; testResults := testResults s;
         currentCharIndex := currentCharIndex s; showSettings := showSettings s;
         capsLockWarning := capsLockWarning s;
         timerRef := Some h; intervals := live |}
  | _ => s
  end.

(** [resetTest] (lines 179-190). *)
Definition resetTest (s : AppState) : AppState :=
  {| testText := testText s; customText := customText s; userInput := EmptyString;
     testState := idle; difficulty := difficulty s; testMode := testMode s;
     targetTime := targetTime s; targetWords := targetWords s;
     startTime := startTime s; currentTime := 0;
     wpmHistory := []; stats := stats s; testResults := testResults s;
     currentCharIndex := 0; showSettings := showSettings s;
     capsLockWarning := false;
     timerRef := timerRef s; intervals := clearTimer (timerRef s) (intervals s) |}.

(** Line 199: [(currentTime - startTime) / 1000]. *)
Definition elapsed (s : AppState) : R := (currentTime s - startTime s) / 1000.

(** [wpmHistory[wpmHistory.length - 1]?.time] *)
Definition last_time (hist : list WpmHistory.t) : option R :=
  option_map WpmHistory.time (Array_at hist (Z.of_nat (List.length hist) - 1)).

(** [x !== t] for [t] a number or [undefined]. *)
Definition strict_neb_opt (x : R) (t : option R) : bool :=
  match t with
  | Some y => negb (strict_eqb x y)
  | None => true
  end.

(** The condition of line 202. *)
Definition sample_due (timeElapsed : R) (hist : list WpmHistory.t) : bool :=
  gtb timeElapsed 0
  && (Z.rem (Math_floor timeElapsed) 2 =? 0)%Z
  && strict_neb_opt (IZR (Math_floor timeElapsed)) (last_time hist).

(** Lines 203-205: the entry pushed on [wpmHistory]. *)
Definition sample (value : string) (timeElapsed : R) : WpmHistory.t :=
  let wordsTyped := INR (String.length value) / 5 in
  let currentWpm := wordsTyped / (timeElapsed / 60) in
  {| WpmHistory.time := IZR (Math_floor timeElapsed);
     WpmHistory.wpm := IZR (Math_round currentWpm) |}.

(** Lines 212-215. *)
Definition isCompleted (value : string) (s : AppState) : bool :=
  let timeElapsed := elapsed s in
  (TestMode_eqb (testMode s) quote
     && (String.length value =? String.length (testText s))%nat)
  || (TestMode_eqb (testMode s) time && geb timeElapsed (targetTime s))
  || (TestMode_eqb (testMode s) words
        && geb (INR (List.length (split " "%char value))) (targetWords s)).

(** [handleInputChange] (lines 192-233); [value] is [e.target.value] and
    [date] the value of [new Date()]. *)
Definition handleInputChange (value : string) (date : R) (s : AppState) : AppState :=
  if negb (TestState_eqb (testState s) active) then s
  else
    let timeElapsed := elapsed s in
    let wpmHistory' :=
      if sample_due timeElapsed (wpmHistory s)
      then wpmHistory s ++ [sample value timeElapsed]
      else wpmHistory s in
    let currentStats := calculateStats value (testText s) timeElapsed (wpmHistory s) in
    if isCompleted value s then
      let result :=
        {| TestResult.stats := currentStats;
           TestResult.timestamp := date;
           TestResult.difficulty := difficulty s;
           TestResult.textLength := String.length (testText s) |} in
      {| testText := testText s; customText := customText s; userInput := value;
         testState := completed; difficulty := difficulty s; testMode := testMode s;
         targetTime := targetTime s; targetWords := targetWords s;
         startTime := startTime s; currentTime := currentTime s;
         wpmHistory := wpmHistory'; stats := currentStats;
         testResults := firstn 20 (result :: testResults s);
         currentCharIndex := String.length value; showSettings := showSettings s;
         capsLockWarning := capsLockWarning s;
         timerRef := timerRef s; intervals := clearTimer (timerRef s) (intervals s) |}
    else
      {| testText := testText s; customText := customText s; userInput := value;
         testState := active; difficulty := difficulty s; testMode := testMode s;
         targetTime := targetTime s; targetWords := targetWords s;
         startTime := startTime s; currentTime := currentTime s;
         wpmHistory := wpmHistory'; stats := currentStats;
         testResults := testResults s;
         currentCharIndex := String.length value; showSettings := showSettings s;
         capsLockWarning := capsLockWarning s;
         timerRef := timerRef s; intervals := intervals s |}.

End Handlers.

(** ** Settings (lines 324-407)

    The [onChange] handlers of the three selects, the duration select and
    the custom-text area. *)

Section Settings.

Definition setTestMode (m : TestMode) (s : AppState) : AppState :=
  {| testText := testText s; customText := customText s; userInput := userInput s;
     testState := testState s; difficulty := difficulty s; testMode := m;
     targetTime := targetTime s; targetWords := targetWords s;
     startTime := startTime s; currentTime := currentTime s;
     wpmHistory := wpmHistory s; stats := stats s; testResults := testResults s;
     currentCharIndex := currentCharIndex s; showSettings := showSettings s;
     capsLockWarning := capsLockWarning s;
     timerRef := timerRef s; intervals := intervals s |}.

Definition setTargetTime (t : R) (s : AppState) : AppState :=
  {| testText := testText s; customText := customText s; userInput := userInput s;
     testState := testState s; difficulty := difficulty s; testMode := testMode s;
     targetTime := t; targetWords := targetWords s;
     startTime := startTime s; currentTime := currentTime s;
     wpmHistory := wpmHistory s; stats := stats s; testResults := testResults s;
     currentCharIndex := currentCharIndex s; showSettings := showSettings s;
     capsLockWarning := capsLockWarning s;
     timerRef := timerRef s; intervals := intervals s |}.

Definition setTargetWords (n : R) (s : AppState) : AppState :=
  {| testText := testText s; customText := customText s; userInput := userInput s;
     testState := testState s; difficulty := difficulty s; testMode := testMode s;
     targetTime := targetTime s; targetWords := n;
     startTime := startTime s; currentTime := currentTime s;
     wpmHistory := wpmHistory s; stats := stats s; testResults := testResults s;
     currentCharIndex := currentCharIndex s; showSettings := showSettings s;
     capsLockWarning := capsLockWarning s;
     timerRef := timerRef s; intervals := intervals s |}.

Definition setDifficulty (d : Difficulty) (s : AppState) : AppState :=
  {| testText := testText s; customText := customText s; userInput := userInput s;
     testState := testState s; difficulty := d; testMode := testMode s;
     targetTime := targetTime s; targetWords := targetWords s;
     startTime := startTime s; currentTime := currentTime s;
     wpmHistory := wpmHistory s; stats := stats s; testResults := testResults s;
     currentCharIndex := currentCharIndex s; showSettings := showSettings s;
     capsLockWarning := capsLockWarning s;
     timerRef := timerRef s; intervals := intervals s |}.

Definition setCustomText (t : string) (s : AppState) : AppState :=
  {| testText := testText s; customText := t; userInput := userInput s;
     testState := testState s; difficulty := difficulty s; testMode := testMode s;
     targetTime := targetTime s; targetWords := targetWords s;
     startTime := startTime s; currentTime := currentTime s;
     wpmHistory := wpmHistory s; stats := stats s; testResults := testResults s;
     currentCharIndex := currentCharIndex s; showSettings := showSettings s;
     capsLockWarning := capsLockWarning s;
     timerRef := timerRef s; intervals := intervals s |}.

End Settings.

(** ** Keyboard ([handleKeyDown], lines 235-255) *)

Definition setCapsLockWarning (b : bool) (s : AppState) : AppState :=
  {| testText := testText s; customText := customText s; userInput := userInput s;
     testState := testState s; difficulty := difficulty s; testMode := testMode s;
     targetTime := targetTime s; targetWords := targetWords s;
     startTime := startTime s; currentTime := currentTime s;
     wpmHistory := wpmHistory s; stats := stats s; testResults := testResults s;
     currentCharIndex := currentCharIndex s; showSettings := showSettings s;
     capsLockWarning := b;
     timerRef := timerRef s; intervals := intervals s |}.

(** [key] is [e.key] and [capsLock] the value of
    [e.getModifierState && e.getModifierState('CapsLock')]; [rnd], [now1] and
    [now2] are what [startTest] reads if it is called.  The state updates
    queued by the handler apply in the order of the calls.  The second
    component counts the timeouts the handler schedules; each of them later
    runs [capsLockTimeout]. *)
Definition handleKeyDown (key : string) (capsLock : bool) (rnd now1 now2 : R)
           (s : AppState) : AppState * nat :=
  let s1 := if capsLock then setCapsLockWarning true s else s in
  let timeouts := if capsLock then 1 else 0 in
  if String.eqb key "Tab" then
    match testState s with
    | idle => (startTest rnd now1 now2 s1, timeouts)
    | completed => (resetTest s1, timeouts)
    | _ => (s1, timeouts)
    end
  else if String.eqb key "Escape" then
    match testState s with
    | active | paused => (pauseTest s1, timeouts)
    | _ => (s1, timeouts)
    end
  else (s1, timeouts).

(** The callback of line 239: [setCapsLockWarning(false)]. *)
Definition capsLockTimeout (s : AppState) : AppState := setCapsLockWarning false s.

(** ** The component as a transition system

    An [event] is one call of a handler by the page.  [enabled] says in
    which states the page offers the control that raises it: the Start
    button is rendered in the idle view and Try Again in the completed view
    (lines 438-452, 530-535); Pause, Resume and Escape need an active or
    paused test (lines 251-253, 423-428, 477-483); Reset, End Test and New
    Test are rendered in the active, paused and completed views (lines
    429-434, 484-490, 536-542); the selects are disabled while the test is
    active and the custom-text area is rendered in the idle view with the
    custom difficulty (lines 328, 343, 361, 377, 395).  A change event of the
    input, a key press, a tick and the caps-lock timeout are always
    accepted: their handlers decide. *)

Inductive event :=
| StartTest (rnd now1 now2 : R)
| PauseTest
| ResetTest
| Tick (h : positive) (now : R)
| InputChange (value : string) (date : R)
| SetTestMode (m : TestMode)
| SetTargetTime (t : R)
| SetTargetWords (n : R)
| SetDifficulty (d : Difficulty)
| SetCustomText (t : string)
| KeyDown (key : string) (capsLock : bool) (rnd now1 now2 : R)
| CapsLockTimeout.

Definition enabled (e : event) (s : AppState) : bool :=
  match e with
  | StartTest _ _ _ =>
      TestState_eqb (testState s) idle || TestState_eqb (testState s) completed
  | PauseTest =>
      TestState_eqb (testState s) active || TestState_eqb (testState s) paused
  | ResetTest => negb (TestState_eqb (testState s) idle)
  | Tick _ _ => true
  | InputChange _ _ => true
  | SetTestMode _ | SetTargetTime _ | SetTargetWords _ | SetDifficulty _ =>
      negb (TestState_eqb (testState s) active)
  | SetCustomText _ =>
      Difficulty_eqb (difficulty s) custom && TestState_eqb (testState s) idle
  | KeyDown _ _ _ _ _ => true
  | CapsLockTimeout => true
  end.

Definition handle (e : event) (s : AppState) : AppState :=
  match e with
  | StartTest rnd now1 now2 => startTest rnd now1 now2 s
  | PauseTest => pauseTest s
  | ResetTest => resetTest s
  | Tick h now => tick h now s
  | InputChange value date => handleInputChange value date s
  | SetTestMode m => setTestMode m s
  | SetTargetTime t => setTargetTime t s
  | SetTargetWords n => setTargetWords n s
  | SetDifficulty d => setDifficulty d s
  | SetCustomText t => setCustomText t s
  | KeyDown key capsLock rnd now1 now2 =>
      fst (handleKeyDown key capsLock rnd now1 now2 s)
  | CapsLockTimeout => capsLockTimeout s
  end.

(** The states the component can be in. *)
Inductive reachable : AppState -> Prop :=
| reachable_initial : reachable initialState
| reachable_handle (e : event) (s : AppState) :
    reachable s -> enabled e s = true -> reachable (handle e s).

(** The tick source and the phase agree: an active test has exactly one
    live interval, the one [timerRef] holds, and no other phase has any. *)
Definition timer_invariant (s : AppState) : Prop :=
  match testState s with
  | active => exists h, timerRef s = Some h /\ intervals s = [h]
  | _ => intervals s = []
  end.

(** ** Binary64 arithmetic

    The numbers of the program are IEEE-754 doubles.  A rounded result at a
    tie depends on the last bit of the quotient the program computes, so the
    value-level statements about [calculateStats] and about the recorded
    samples are made on this second embedding, in which a [number] is a
    primitive binary64 [float] and every operation rounds as the program's
    does.  The embedding above, over the reals, is kept for the statements
    that bound or compare results.  Both share the character scoring, which
    is integer arithmetic. *)

Module F64.

Import Floats.
Local Open Scope float_scope.

(** The double of an integer; exact up to [2^53], so for every length. *)
Definition of_Z (z : Z) : float := SF2Prim (binary_normalize prec emax z 0 false).
Definition of_nat (n : nat) : float := of_Z (Z.of_nat n).

(** [Math.floor]: exact; zeros, infinities and NaN are returned as they are. *)
Definition Math_floor (x : float) : float :=
  match Prim2SF x with
  | S754_finite s m e =>
      if (0 <=? e)%Z then x
      else SF2Prim (binary_normalize prec emax
                      (cond_Zopp s (Zpos m) / 2 ^ (- e))%Z 0 s)
  | _ => x
  end.

(** [Math.round]: the integer nearest to the exact value of [x], ties
    towards plus infinity, [-0] for [x] in [[-0.5, 0)]. *)
Definition Math_round (x : float) : float :=
  match Prim2SF x with
  | S754_finite s m e =>
      if (0 <=? e)%Z then x
      else SF2Prim (binary_normalize prec emax
                      ((2 * cond_Zopp s (Zpos m) + 2 ^ (- e)) / 2 ^ (1 - e))%Z 0 s)
  | _ => x
  end.

(** [Math.max] and [Math.min] of two numbers: NaN if either is NaN, and
    [+0] above [-0]. *)
Definition Math_max (a b : float) : float :=
  if is_nan a || is_nan b then nan
  else if a <? b then b
  else if b <? a then a
  else if get_sign a then b else a.

Definition Math_min (a b : float) : float :=
  if is_nan a || is_nan b then nan
  else if a <? b then a
  else if b <? a then b
  else if get_sign a then a else b.

(** [x % y]: the exact remainder of the truncating division, with the sign
    of [x]. *)
Definition rem (x y : float) : float :=
  match Prim2SF x, Prim2SF y with
  | S754_nan, _ | _, S754_nan => nan
  | S754_infinity _, _ | _, S754_zero _ => nan
  | S754_zero _, _ => x
  | S754_finite _ _ _, S754_infinity _ => x
  | S754_finite sx mx ex, S754_finite _ my ey =>
      let e0 := Z.min ex ey in
      let X := (Zpos mx * 2 ^ (ex - e0))%Z in
      let Y := (Zpos my * 2 ^ (ey - e0))%Z in
      SF2Prim (binary_normalize prec emax (cond_Zopp sx (X mod Y)) e0 sx)
  end.

(** [x > y], [x >= y] and [x !== y] on numbers. *)
Definition gtb (x y : float) : bool := y <? x.
Definition geb (x y : float) : bool := y <=? x.
Definition strict_neb (x y : float) : bool := negb (x =? y).

(** [Math.pow] is implementation-approximated in ECMAScript; the statistics
    take it as a parameter.  [pow_exact_square] is the instance that rounds
    the square correctly, used to evaluate examples. *)
Definition pow_exact_square (x y : float) : float := x * x.

Module TypingStats.
Record t := mk {
  wpm : float;
  rawWpm : float;
  accuracy : float;
  correctChars : nat;
  incorrectChars : nat;
  totalChars : nat;
  timeElapsed : float;
  consistency : float
}.
End TypingStats.

Module TestResult.
Record t := mk {
  stats : TypingStats.t;
  timestamp : float;
  difficulty : Difficulty;
  textLength : nat
}.
End TestResult.

Module WpmHistory.
Record t := mk {
  time : float;
  wpm : float
}.
End WpmHistory.

Section Stats.

(** [Math.pow]. *)
Variable pow : float -> float -> float.

(** Line 114. *)
Definition accuracy_raw (correctChars totalChars : nat) : float :=
  if (0 <? totalChars)%nat then (of_nat correctChars / of_nat totalChars) * 100 else 0.

(** Lines 115-119. *)
Definition wordsTyped (totalChars : nat) : float := of_nat totalChars / 5.

Definition timeInMinutes (timeElapsed : float) : float := timeElapsed / 60.

Definition grossWpm (totalChars : nat) (timeElapsed : float) : float :=
  if gtb (timeInMinutes timeElapsed) 0
  then Math_round (wordsTyped totalChars / timeInMinutes timeElapsed)
  else 0.

Definition errorsPerMinute (incorrectChars : nat) (timeElapsed : float) : float :=
  if gtb (timeInMinutes timeElapsed) 0
  then of_nat incorrectChars / timeInMinutes timeElapsed
  else 0.

Definition netWpm (totalChars incorrectChars : nat) (timeElapsed : float) : float :=
  Math_max 0 (Math_round (grossWpm totalChars timeElapsed
                          - errorsPerMinute incorrectChars timeElapsed)).

(** Lines 121-129.  [Math.sqrt] is the correctly rounded square root. *)
Definition consistency_raw (wpmHist : list WpmHistory.t) : float :=
  if (1 <? List.length wpmHist)%nat then
    let wpmValues := map WpmHistory.wpm wpmHist in
    let mean := reduce (fun a b => a + b) 0 wpmValues / of_nat (List.length wpmValues) in
    let variance :=
      reduce (fun a b => a + pow (b - mean) 2) 0 wpmValues
      / of_nat (List.length wpmValues) in
    let stdDev := sqrt variance in
    Math_max 0 (Math_min 100 (100 - stdDev * 2))
  else 100.

(** [calculateStats] (lines 93-104 and 114-141); the loop is [score_chars]. *)
Definition calculateStats (input text : string) (timeElapsed : float)
           (wpmHist : list WpmHistory.t) : TypingStats.t :=
  let totalChars := String.length input in
  let '(correctChars, incorrectChars) := score_chars input text in
  let accuracy := accuracy_raw correctChars totalChars in
  let consistency := consistency_raw wpmHist in
  {| TypingStats.wpm := netWpm totalChars incorrectChars timeElapsed;
     TypingStats.rawWpm := grossWpm totalChars timeElapsed;
     TypingStats.accuracy := Math_round (accuracy * 100) / 100;
     TypingStats.correctChars := correctChars;
     TypingStats.incorrectChars := incorrectChars;
     TypingStats.totalChars := totalChars;
     TypingStats.timeElapsed := timeElapsed;
     TypingStats.consistency := Math_round consistency |}.

End Stats.

(** The component state (lines 56-83) with its numbers as doubles. *)
Record AppState := mkAppState {
  testText : string;
  customText : string;
  userInput : string;
  testState : TestState;
  difficulty : Difficulty;
  testMode : TestMode;
  targetTime : float;
  targetWords : float;
  startTime : float;
  currentTime : float;
  wpmHistory : list WpmHistory.t;
  stats : TypingStats.t;
  testResults : list TestResult.t;
  currentCharIndex : nat;
  showSettings : bool;
  capsLockWarning : bool;
  timerRef : option positive;
  intervals : list positive
}.

Section Handlers.

Variable pow : float -> float -> float.

(** Line 199. *)
Definition elapsed (s : AppState) : float := (currentTime s - startTime s) / 1000.

(** [wpmHistory[wpmHistory.length - 1]?.time] *)
Definition last_time (hist : list WpmHistory.t) : option float :=
  option_map WpmHistory.time (Array_at hist (Z.of_nat (List.length hist) - 1)).

(** [x !== t] for [t] a number or [undefined]. *)
Definition strict_neb_opt (x : float) (t : option float) : bool :=
  match t with
  | Some y => strict_neb x y
  | None => true
  end.

(** The condition of line 202. *)
Definition sample_due (timeElapsed : float) (hist : list WpmHistory.t) : bool :=
  gtb timeElapsed 0
  && (rem (Math_floor timeElapsed) 2 =? 0)
  && strict_neb_opt (Math_floor timeElapsed) (last_time hist).

(** Lines 203-205. *)
Definition sample (value : string) (timeElapsed : float) : WpmHistory.t :=
  let wordsTyped := of_nat (String.length value) / 5 in
  let currentWpm := wordsTyped / (timeElapsed / 60) in
  {| WpmHistory.time := Math_floor timeElapsed;
     WpmHistory.wpm := Math_round currentWpm |}.

(** Lines 212-215. *)
Definition isCompleted (value : string) (s : AppState) : bool :=
  let timeElapsed := elapsed s in
  (TestMode_eqb (testMode s) quote
     && (String.length value =? String.length (testText s))%nat)
  || (TestMode_eqb (testMode s) time && geb timeElapsed (targetTime s))
  || (TestMode_eqb (testMode s) words
        && geb (of_nat (List.length (split " "%char value))) (targetWords s)).

(** [handleInputChange] (lines 192-233). *)
Definition handleInputChange (value : string) (date : float) (s : AppState) : AppState :=
  if negb (TestState_eqb (testState s) active) then s
  else
    let timeElapsed := elapsed s in
    let wpmHistory' :=
      if sample_due timeElapsed (wpmHistory s)
      then wpmHistory s ++ [sample value timeElapsed]
      else wpmHistory s in
    let currentStats := calculateStats pow value (testText s) timeElapsed (wpmHistory s) in
    if isCompleted value s then
      let result :=
        {| TestResult.stats := currentStats;
           TestResult.timestamp := date;
           TestResult.difficulty := difficulty s;
           TestResult.textLength := String.length (testText s) |} in
      {| testText := testText s; customText := customText s; userInput := value;
         testState := completed; difficulty := difficulty s; testMode := testMode s;
         targetTime := targetTime s; targetWords := targetWords s;
         startTime := startTime s; currentTime := currentTime s;
         wpmHistory := wpmHistory'; stats := currentStats;
         testResults := firstn 20 (result :: testResults s);
         currentCharIndex := String.length value; showSettings := showSettings s;
         capsLockWarning := capsLockWarning s;
         timerRef := timerRef s; intervals := clearTimer (timerRef s) (intervals s) |}
    else
      {| testText := testText s; customText := customText s; userInput := value;
         testState := active; difficulty := difficulty s; testMode := testMode s;
         targetTime := targetTime s; targetWords := targetWords s;
         startTime := startTime s; currentTime := currentTime s;
         wpmHistory := wpmHistory'; stats := currentStats;
         testResults := testResults s;
         currentCharIndex := String.length value; showSettings := showSettings s;
         capsLockWarning := capsLockWarning s;
         timerRef := timerRef s; intervals := intervals s |}.

End Handlers.

(** *** Vocabulary of the specification, in doubles *)

Section SpecVocabulary.

Variable pow : float -> float -> float.

(** [x] rounded to two decimal places. *)
Definition round2 (x : float) : float := Math_round (x * 100) / 100.

(** The sum of a list, added up from the left. *)
Definition sum (l : list float) : float := fold_left add l 0.

Definition population_mean (l : list float) : float := sum l / of_nat (List.length l).

Definition population_variance (l : list float) : float :=
  sum (map (fun x => pow (x - population_mean l) 2) l) / of_nat (List.length l).

Definition population_std_dev (l : list float) : float := sqrt (population_variance l).

Definition clamp (x lo hi : float) : float := Math_max lo (Math_min hi x).

End SpecVocabulary.

(** *** Example inputs *)

(** The state of the initial render (lines 56-83). *)
Definition initialStats : TypingStats.t :=
  {| TypingStats.wpm := 0; TypingStats.rawWpm := 0; TypingStats.accuracy := 0;
     TypingStats.correctChars := 0; TypingStats.incorrectChars := 0;
     TypingStats.totalChars := 0; TypingStats.timeElapsed := 0;
     TypingStats.consistency := 0 |}.

(** An active session half a second after its start, with no sample yet. *)
Definition early_state : AppState :=
  {| testText := "The quick brown fox jumps over the lazy dog.";
     customText := EmptyString; userInput := EmptyString;
     testState := active; difficulty := easy; testMode := quote;
     targetTime := 60; targetWords := 50; startTime := 1000; currentTime := 1500;
     wpmHistory := []; stats := initialStats; testResults := [];
     currentCharIndex := 0; showSettings := false; capsLockWarning := false;
     timerRef := Some 2%positive; intervals := [2%positive] |}.

(** The same session 14.4 seconds after its start. *)
Definition later_state : AppState :=
  {| testText := "The quick brown fox jumps over the lazy dog.";
     customText := EmptyString; userInput := EmptyString;
     testState := active; difficulty := easy; testMode := quote;
     targetTime := 60; targetWords := 50; startTime := 1000; currentTime := 15400;
     wpmHistory := []; stats := initialStats; testResults := [];
     currentCharIndex := 0; showSettings := false; capsLockWarning := false;
     timerRef := Some 2%positive; intervals := [2%positive] |}.



End F64.

(** ** Vocabulary of the specification

    The definitions below follow the words of the specification, not the
    code; the theorems compare the code with them. *)

Section SpecVocabulary.

Local Open Scope R_scope.

(** Character [i] of [typedText] matches: [i < len(sourceText)] and
    [typedText[i] == sourceText[i]]. *)
Definition char_matches (typedText sourceText : string) (i : nat) : Prop :=
  (i < String.length sourceText)%nat /\ String.get i typedText = String.get i sourceText.

Definition option_ascii_eqb (a b : option ascii) : bool :=
  match a, b with
  | Some x, Some y => Ascii.eqb x y
  | None, None => true
  | _, _ => false
  end.

Definition char_matchesb (typedText sourceText : string) (i : nat) : bool :=
  (i <? String.length sourceText)%nat
  && option_ascii_eqb (String.get i typedText) (String.get i sourceText).

(** The number of indices below [n] that satisfy [p]. *)
Definition count_below (p : nat -> bool) (n : nat) : nat :=
  List.length (filter p (seq 0 n)).

(** [x] rounded to two decimal places: the nearest multiple of [1/100]. *)
Definition round2 (x : R) : R := IZR (Math_round (x * 100)) / 100.

Definition sum (l : list R) : R := fold_right Rplus 0 l.

Definition population_mean (l : list R) : R := sum l / INR (List.length l).

Definition population_variance (l : list R) : R :=
  sum (map (fun x => (x - population_mean l) ^ 2) l) / INR (List.length l).

Definition population_std_dev (l : list R) : R := sqrt (population_variance l).

Definition clamp (x lo hi : R) : R := Rmax lo (Rmin hi x).

(** The history keeps the newest result first and at most 20 of them. *)
Definition history_capacity : nat := 20.

End SpecVocabulary.

(** A text of [n] copies of one character. *)
Fixpoint repeat_char (c : ascii) (n : nat) : string :=
  match n with
  | O => EmptyString
  | S k => String c (repeat_char c k)
  end.

(** A typed text of 160 characters of which the first 23 match the source. *)
Definition tie_typed : string := repeat_char "a" 23 ++ repeat_char "b" 137.
Definition tie_source : string := repeat_char "a" 160.

(** ** Example inputs *)

(** 25000 typed characters against a source text one character shorter:
    the last typed character lies past the end of the source. *)
Definition long_typed : string := repeat_char "a"%char (Z.to_nat 25000).
Definition long_source : string := repeat_char "a"%char (Z.to_nat 24999).

(** A session half a second after its start: [startTest] at 1000 ms with
    [Math.random() = 0], then one tick of the interval at 1500 ms. *)
Definition started_state : AppState := startTest 0 1000 1000 initialState.
Definition early_state : AppState := tick 2 1500 started_state.

(** The same session after the first key, ["T"]. *)
Definition typing_state : AppState := handleInputChange "T" 1500 early_state.

(** An active quote session on the custom text ["ab"] whose history already
    holds 20 results. *)
Definition old_result : TestResult.t :=
  {| TestResult.stats := initialStats; TestResult.timestamp := 0%R;
     TestResult.difficulty := custom; TestResult.textLength := 2 |}.

Definition full_history_state : AppState :=
  {| testText := "ab"; customText := "ab"; userInput := "a";
     testState := active; difficulty := custom; testMode := quote;
     targetTime := 60%R; targetWords := 50%R; startTime := 1000%R; currentTime := 4000%R;
     wpmHistory := []; stats := initialStats; testResults := repeat old_result 20;
     currentCharIndex := 1; showSettings := false; capsLockWarning := false;
     timerRef := Some 2%positive; intervals := [2%positive] |}.

(** A word-count session with a target of three words. *)
Definition three_words_state : AppState :=
  {| testText := "a b c d"; customText := "a b c d"; userInput := EmptyString;
     testState := active; difficulty := custom; testMode := words;
     targetTime := 60%R; targetWords := 3%R; startTime := 1000%R; currentTime := 4000%R;
     wpmHistory := []; stats := initialStats; testResults := [];
     currentCharIndex := 0; showSettings := false; capsLockWarning := false;
     timerRef := Some 2%positive; intervals := [2%positive] |}.

(** ** View functions *)

Module JSText.

Local Open Scope R_scope.

(** The integer part of a number, rounded towards zero. *)
Definition trunc (x : R) : Z :=
  if Rle_dec 0 x then Math_floor x else (- Math_floor (- x))%Z.

(** [x % y] on numbers: the remainder has the sign of [x]. *)
Definition rem (x y : R) : R := x - y * IZR (trunc (x / y)).

(** [n.toString()] for an integer [n]; JavaScript prints integers in plain
    decimal digits below [10^21] in absolute value. *)
Definition toString (n : Z) : string := DecimalString.NilZero.string_of_int (Z.to_int n).

(** [s.padStart(n, c)] for a pad string of one code unit. *)
Definition padStart (n : nat) (c : ascii) (s : string) : string :=
  (repeat_char c (n - String.length s) ++ s)%string.

End JSText.

Section View.

Local Open Scope R_scope.

(** [getCharacterClass] (lines 257-267). *)
Definition getCharacterClass (index : nat) (s : AppState) : string :=
  if (String.length (userInput s) <=? index)%nat then
    if (index =? currentCharIndex s)%nat
    then "bg-blue-200 animate-pulse"%string
    else "text-gray-400"%string
  else if index_strict_eqb (userInput s) (testText s) index
       then "text-green-600 bg-green-100"%string
       else "text-red-600 bg-red-100"%string.

(** The classes of the spans rendered for the source text (lines 457-461):
    one span per code unit of [testText]. *)
Definition renderedClasses (s : AppState) : list string :=
  map (fun index => getCharacterClass index s) (seq 0 (String.length (testText s))).

(** [formatTime] (lines 269-273), in exact arithmetic.  For a double below
    [2^53] the program's quotient [seconds / 60], rounded to a double, has
    the same whole part as the exact one, and [%] is exact. *)
Definition formatTime (seconds : R) : string :=
  let mins := Math_floor (seconds / 60) in
  let secs := Math_floor (JSText.rem seconds 60) in
  (JSText.toString mins ++ ":" ++ JSText.padStart 2 "0"%char (JSText.toString secs))%string.

(** The time shown in the settings panel (line 390). *)
Definition displayedTime (s : AppState) : string := formatTime (elapsed s).

End View.

(** ** Well-formed statistics and samples *)

Section WellFormed.

Local Open Scope R_scope.

(** What every statistics record computed by [calculateStats] satisfies. *)
Definition stats_wellformed (st : TypingStats.t) : Prop :=
  (TypingStats.correctChars st + TypingStats.incorrectChars st
   = TypingStats.totalChars st)%nat
  /\ 0 <= TypingStats.accuracy st <= 100
  /\ (0 <= TypingStats.consistency st <= 100)%Z
  /\ (0 <= TypingStats.wpm st <= TypingStats.rawWpm st)%Z.

(** A sample taken by [handleInputChange]: an even whole second of elapsed
    time and a whole, non-negative WPM. *)
Definition sample_wellformed (h : WpmHistory.t) : Prop :=
  exists t w : Z,
    WpmHistory.time h = IZR t /\ WpmHistory.wpm h = IZR w
    /\ (0 <= t)%Z /\ Z.Even t /\ (0 <= w)%Z.

(** Sample lists as the handler builds them: each sample is appended to a
    list whose last time differs from its own. *)
Inductive samples_built : list WpmHistory.t -> Prop :=
| samples_built_nil : samples_built []
| samples_built_snoc (hist : list WpmHistory.t) (h : WpmHistory.t) :
    samples_built hist ->
    sample_wellformed h ->
    last_time hist <> Some (WpmHistory.time h) ->
    samples_built (hist ++ [h]).

(** The history holds at most 20 results, and the current statistics and
    the statistics of every result are well formed. *)
Definition history_invariant (s : AppState) : Prop :=
  (List.length (testResults s) <= 20)%nat
  /\ stats_wellformed (stats s)
  /\ Forall (fun r => stats_wellformed (TestResult.stats r)) (testResults s).

(** The cursor index is the length of the typed text, and an idle
    component holds no typed text and no samples. *)
Definition cursor_invariant (s : AppState) : Prop :=
  currentCharIndex s = String.length (userInput s)
  /\ (testState s = idle -> userInput s = EmptyString /\ wpmHistory s = []).

End WellFormed.

(** A session with one recorded sample, two seconds and a bit after that
    sample was taken. *)
Definition one_sample_state : AppState :=
  {| testText := "the quick brown fox"; customText := EmptyString; userInput := "the q";
     testState := active; difficulty := medium; testMode := quote;
     targetTime := 60%R; targetWords := 50%R; startTime := 1000%R; currentTime := 5500%R;
     wpmHistory := [ {| WpmHistory.time := 2%R; WpmHistory.wpm := 30%R |} ];
     stats := initialStats; testResults := [];
     currentCharIndex := 5; showSettings := false; capsLockWarning := false;
     timerRef := Some 2%positive; intervals := [2%positive] |}.

(** * Properties *)

(** ** Rounding *)

Section Rounding.

Local Open Scope R_scope.

Lemma Math_floor_spec (x : R) (n : Z) :
  IZR n <= x < IZR n + 1 -> Math_floor x = n.
Proof.
  intros [Hlo Hhi]. unfold Math_floor. symmetry.
  apply Int_part_spec. split; lra.
Qed.

Lemma Math_floor_bounds (x : R) :
  IZR (Math_floor x) <= x < IZR (Math_floor x) + 1.
Proof.
  unfold Math_floor. destruct (base_Int_part x) as [Hlo Hhi]. split; lra.
Qed.

Lemma Math_round_spec (x : R) (n : Z) :
  IZR n - / 2 <= x < IZR n + / 2 -> Math_round x = n.
Proof.
  intros [Hlo Hhi]. unfold Math_round. apply Math_floor_spec. split; lra.
Qed.

Lemma Math_round_bounds (x : R) :
  IZR (Math_round x) - / 2 <= x < IZR (Math_round x) + / 2.
Proof.
  unfold Math_round. destruct (Math_floor_bounds (x + / 2)) as [Hlo Hhi].
  split; lra.
Qed.

Lemma Math_round_IZR (n : Z) : Math_round (IZR n) = n.
Proof. apply Math_round_spec. split; lra. Qed.

(** Rounding keeps a number between two integers between them. *)
Lemma Math_round_between (x : R) (a b : Z) :
  IZR a <= x <= IZR b -> (a <= Math_round x <= b)%Z.
Proof.
  intros [Ha Hb]. destruct (Math_round_bounds x) as [Hlo Hhi].
  split.
  - apply Z.lt_succ_r. apply lt_IZR. rewrite succ_IZR. lra.
  - apply Z.lt_succ_r. apply lt_IZR. rewrite succ_IZR. lra.
Qed.

Lemma Math_round_inv (x : R) (n : Z) :
  Math_round x = n -> IZR n - / 2 <= x < IZR n + / 2.
Proof. intros <-. apply Math_round_bounds. Qed.

Lemma gtb_true (x y : R) : gtb x y = true <-> y < x.
Proof. unfold gtb. destruct (Rlt_dec y x); split; intros; try easy. Qed.

Lemma gtb_false (x y : R) : gtb x y = false <-> x <= y.
Proof. unfold gtb. destruct (Rlt_dec y x); split; intros; try easy; lra. Qed.

Lemma geb_true (x y : R) : geb x y = true <-> x >= y.
Proof. unfold geb. destruct (Rle_dec y x); split; intros; try easy; lra. Qed.

Lemma strict_eqb_true (x y : R) : strict_eqb x y = true <-> x = y.
Proof. unfold strict_eqb. destruct (Req_dec_T x y); split; intros; easy. Qed.

End Rounding.

(** ** Character scoring *)

Section Scoring.

Lemma option_ascii_eqb_eq (a b : option ascii) :
  option_ascii_eqb a b = true <-> a = b.
Proof.
  destruct a as [x|], b as [y|]; simpl; split; intros H;
    try discriminate; try reflexivity.
  - apply Ascii.eqb_eq in H. now subst.
  - injection H as ->. apply Ascii.eqb_refl.
Qed.

Lemma char_matchesb_spec (typedText sourceText : string) (i : nat) :
  char_matchesb typedText sourceText i = true <-> char_matches typedText sourceText i.
Proof.
  unfold char_matchesb, char_matches.
  rewrite andb_true_iff, Nat.ltb_lt, option_ascii_eqb_eq. reflexivity.
Qed.

Lemma char_matchesb_false (typedText sourceText : string) (i : nat) :
  char_matchesb typedText sourceText i = false <-> ~ char_matches typedText sourceText i.
Proof.
  rewrite <- char_matchesb_spec.
  destruct (char_matchesb typedText sourceText i); split; intros; easy.
Qed.

(** One turn of the loop adds one to the count the character belongs to. *)
Lemma score_step_eq (input text : string) (c ic i : nat) :
  score_step input text (c, ic) i =
  if char_matchesb input text i then (S c, ic) else (c, S ic).
Proof. reflexivity. Qed.

Lemma score_fold (input text : string) (l : list nat) :
  forall c ic,
    fold_left (score_step input text) l (c, ic) =
    (c + List.length (filter (char_matchesb input text) l),
     ic + List.length (filter (fun i => negb (char_matchesb input text i)) l)).
Proof.
  induction l as [|i l IH]; intros c ic; cbn [fold_left filter].
  - cbn [List.length]. now rewrite !Nat.add_0_r.
  - rewrite score_step_eq.
    destruct (char_matchesb input text i); cbn [negb];
      rewrite IH; cbn [List.length]; f_equal; lia.
Qed.

Lemma score_chars_count (input text : string) :
  score_chars input text =
  (count_below (char_matchesb input text) (String.length input),
   count_below (fun i => negb (char_matchesb input text i)) (String.length input)).
Proof. unfold score_chars, count_below. now rewrite score_fold. Qed.

Lemma filter_partition_length (A : Type) (p : A -> bool) (l : list A) :
  List.length (filter p l) + List.length (filter (fun x => negb (p x)) l) = List.length l.
Proof.
  induction l as [|x l IH]; simpl; [reflexivity|].
  destruct (p x); simpl; lia.
Qed.

Lemma count_below_partition (p : nat -> bool) (n : nat) :
  count_below p n + count_below (fun i => negb (p i)) n = n.
Proof.
  unfold count_below. rewrite filter_partition_length. apply length_seq.
Qed.

Lemma count_below_le (p : nat -> bool) (n : nat) : count_below p n <= n.
Proof. pose proof (count_below_partition p n). lia. Qed.

(** No index below [n] fails [p] exactly when all of them satisfy it. *)
Lemma count_below_neg_zero (p : nat -> bool) (n : nat) :
  count_below (fun i => negb (p i)) n = 0 <-> (forall i, i < n -> p i = true).
Proof.
  unfold count_below. split.
  - intros H i Hi.
    destruct (p i) eqn:E; [reflexivity|].
    assert (Hin : In i (filter (fun i => negb (p i)) (seq 0 n))).
    { apply filter_In. split; [apply in_seq; lia | now rewrite E]. }
    destruct (filter (fun i => negb (p i)) (seq 0 n)); [destruct Hin | discriminate].
  - intros H.
    destruct (filter (fun i => negb (p i)) (seq 0 n)) as [|j l] eqn:E; [reflexivity|].
    assert (Hin : In j (filter (fun i => negb (p i)) (seq 0 n))) by (rewrite E; now left).
    apply filter_In in Hin. destruct Hin as [Hj Hp].
    apply in_seq in Hj. rewrite H in Hp by lia. discriminate.
Qed.

(** The fields of the record in terms of the components. *)
Lemma calculateStats_fields (input text : string) (timeElapsed : R)
      (wpmHist : list WpmHistory.t) :
  calculateStats input text timeElapsed wpmHist =
  let totalChars := String.length input in
  let correctChars := count_below (char_matchesb input text) totalChars in
  let incorrectChars := count_below (fun i => negb (char_matchesb input text i)) totalChars in
  {| TypingStats.wpm := netWpm totalChars incorrectChars timeElapsed;
     TypingStats.rawWpm := grossWpm totalChars timeElapsed;
     TypingStats.accuracy := round2 (accuracy_raw correctChars totalChars);
     TypingStats.correctChars := correctChars;
     TypingStats.incorrectChars := incorrectChars;
     TypingStats.totalChars := totalChars;
     TypingStats.timeElapsed := timeElapsed;
     TypingStats.consistency := Math_round (consistency_raw wpmHist) |}.
Proof. unfold calculateStats. now rewrite score_chars_count. Qed.

End Scoring.

(** Rewrites the statistics of the goal into their components. *)
Ltac stats_fields :=
  rewrite calculateStats_fields;
  cbn [TypingStats.wpm TypingStats.rawWpm TypingStats.accuracy
       TypingStats.correctChars TypingStats.incorrectChars
       TypingStats.totalChars TypingStats.timeElapsed TypingStats.consistency].


(** ** Accuracy *)

Section Accuracy.

Local Open Scope R_scope.

Lemma accuracy_raw_zero (c : nat) : accuracy_raw c 0 = 0.
Proof. reflexivity. Qed.

Lemma accuracy_raw_pos (c t : nat) :
  (0 < t)%nat -> accuracy_raw c t = INR c / INR t * 100.
Proof.
  intros Ht. unfold accuracy_raw.
  destruct (Nat.ltb_spec 0 t); [reflexivity | lia].
Qed.

Lemma accuracy_raw_bounds (c t : nat) :
  (c <= t)%nat -> 0 <= accuracy_raw c t <= 100.
Proof.
  intros Hct. destruct t as [|t].
  - rewrite accuracy_raw_zero. lra.
  - rewrite accuracy_raw_pos by lia.
    assert (Ht : 0 < INR (S t)) by (apply lt_0_INR; lia).
    assert (Hc : 0 <= INR c) by apply pos_INR.
    assert (Hle : INR c <= INR (S t)) by (apply le_INR; lia).
    assert (Hq : 0 <= INR c / INR (S t) <= 1).
    { split.
      - apply Rmult_le_pos; [lra | left; now apply Rinv_0_lt_compat].
      - apply Rmult_le_reg_r with (INR (S t)); [lra|].
        unfold Rdiv. rewrite Rmult_assoc, Rinv_l by lra. lra. }
    lra.
Qed.

Lemma round2_zero : round2 0 = 0.
Proof.
  unfold round2. rewrite Rmult_0_l, Math_round_IZR. lra.
Qed.

(** [round2 x] is a multiple of [1/100] at distance at most [1/200]. *)
Lemma round2_nearest (x : R) :
  (exists n : Z, round2 x = IZR n / 100) /\ - (1 / 200) < round2 x - x <= 1 / 200.
Proof.
  split.
  - exists (Math_round (x * 100)). reflexivity.
  - unfold round2. destruct (Math_round_bounds (x * 100)) as [Hlo Hhi]. lra.
Qed.

Lemma round2_bounds (x : R) : 0 <= x <= 100 -> 0 <= round2 x <= 100.
Proof.
  intros Hx. unfold round2.
  destruct (@Math_round_between (x * 100) 0 10000) as [Hlo Hhi]; [lra|].
  apply IZR_le in Hlo, Hhi. lra.
Qed.

Lemma round2_eq_100 (x : R) : round2 x = 100 <-> 9999 / 100 + 1 / 200 <= x < 100 + 1 / 200.
Proof.
  unfold round2. split.
  - intros H.
    assert (Hr : Math_round (x * 100) = 10000%Z).
    { apply eq_IZR. lra. }
    apply Math_round_inv in Hr. lra.
  - intros H. rewrite (@Math_round_spec (x * 100) 10000) by lra. lra.
Qed.

(** In exact arithmetic the rounded accuracy is 100 as soon as at most one
    typed character in 20000 is wrong. *)
Lemma accuracy_100_iff (c ic t : nat) :
  (c + ic = t)%nat ->
  (round2 (accuracy_raw c t) = 100 <->
   (0 < t)%nat /\ (20000 * Z.of_nat ic <= Z.of_nat t)%Z).
Proof.
  intros Hsum. rewrite round2_eq_100.
  destruct t as [|t].
  - rewrite accuracy_raw_zero. split; [lra | lia].
  - rewrite accuracy_raw_pos by lia.
    assert (Ht : 0 < INR (S t)) by (apply lt_0_INR; lia).
    assert (Hc : INR c = INR (S t) - INR ic).
    { rewrite <- Hsum, plus_INR. lra. }
    rewrite Hc.
    replace ((INR (S t) - INR ic) / INR (S t) * 100)
      with (100 - 100 * INR ic / INR (S t)) by (field; lra).
    assert (Hic : 0 <= INR ic) by apply pos_INR.
    split.
    + intros [Hlo _]. split; [lia|].
      apply le_IZR. rewrite mult_IZR, <- !INR_IZR_INZ.
      assert (Hq : 100 * INR ic / INR (S t) <= 1 / 200) by lra.
      apply (Rmult_le_compat_r (INR (S t))) in Hq; [|lra].
      unfold Rdiv in Hq. rewrite Rmult_assoc, Rinv_l, Rmult_1_r in Hq by lra. lra.
    + intros [_ Hle]. apply IZR_le in Hle.
      rewrite mult_IZR, <- !INR_IZR_INZ in Hle.
      assert (Hq : 0 <= 100 * INR ic / INR (S t) <= 1 / 200).
      { split.
        - apply Rmult_le_pos; [lra | left; now apply Rinv_0_lt_compat].
        - apply Rmult_le_reg_r with (INR (S t)); [lra|].
          unfold Rdiv. rewrite Rmult_assoc, Rinv_l, Rmult_1_r by lra. lra. }
      lra.
Qed.

End Accuracy.

(** ** Words per minute *)

Section Wpm.

Local Open Scope R_scope.

Lemma timeInMinutes_pos (timeElapsed : R) :
  gtb (timeInMinutes timeElapsed) 0 = true <-> 0 < timeElapsed.
Proof. rewrite gtb_true. unfold timeInMinutes. split; intros; lra. Qed.

Lemma timeInMinutes_nonpos (timeElapsed : R) :
  gtb (timeInMinutes timeElapsed) 0 = false <-> timeElapsed <= 0.
Proof. rewrite gtb_false. unfold timeInMinutes. split; intros; lra. Qed.

Lemma grossWpm_pos (totalChars : nat) (timeElapsed : R) :
  0 < timeElapsed ->
  grossWpm totalChars timeElapsed =
  Math_round ((INR totalChars / 5) / (timeElapsed / 60)).
Proof.
  intros H. unfold grossWpm. apply timeInMinutes_pos in H. now rewrite H.
Qed.

Lemma grossWpm_nonpos (totalChars : nat) (timeElapsed : R) :
  timeElapsed <= 0 -> grossWpm totalChars timeElapsed = 0%Z.
Proof.
  intros H. unfold grossWpm. apply timeInMinutes_nonpos in H. now rewrite H.
Qed.

Lemma errorsPerMinute_pos (incorrectChars : nat) (timeElapsed : R) :
  0 < timeElapsed ->
  errorsPerMinute incorrectChars timeElapsed = INR incorrectChars / (timeElapsed / 60).
Proof.
  intros H. unfold errorsPerMinute. apply timeInMinutes_pos in H. now rewrite H.
Qed.

Lemma errorsPerMinute_nonpos (incorrectChars : nat) (timeElapsed : R) :
  timeElapsed <= 0 -> errorsPerMinute incorrectChars timeElapsed = 0.
Proof.
  intros H. unfold errorsPerMinute. apply timeInMinutes_nonpos in H. now rewrite H.
Qed.

Lemma netWpm_nonneg (totalChars incorrectChars : nat) (timeElapsed : R) :
  (0 <= netWpm totalChars incorrectChars timeElapsed)%Z.
Proof. unfold netWpm. apply Z.le_max_l. Qed.

End Wpm.

(** ** Consistency *)

Section Consistency.

Local Open Scope R_scope.

(** [reduce] with an accumulating sum is the sum of the mapped list. *)
Lemma reduce_sum (f : R -> R) (l : list R) :
  forall a, reduce (fun a b => a + f b) a l = a + sum (map f l).
Proof.
  unfold reduce.
  induction l as [|x l IH]; intros a; cbn [fold_left map sum fold_right].
  - lra.
  - rewrite IH. unfold sum. lra.
Qed.

Lemma reduce_plus (l : list R) : reduce (fun a b => a + b) 0 l = sum l.
Proof.
  rewrite (reduce_sum (fun b => b)). rewrite map_id. lra.
Qed.

Lemma consistency_raw_short (wpmHist : list WpmHistory.t) :
  (List.length wpmHist < 2)%nat -> consistency_raw wpmHist = 100.
Proof.
  intros H. unfold consistency_raw.
  destruct (Nat.ltb_spec 1 (List.length wpmHist)); [lia | reflexivity].
Qed.

Lemma consistency_raw_long (wpmHist : list WpmHistory.t) :
  (2 <= List.length wpmHist)%nat ->
  consistency_raw wpmHist =
  clamp (100 - 2 * population_std_dev (map WpmHistory.wpm wpmHist)) 0 100.
Proof.
  intros H. unfold consistency_raw.
  destruct (Nat.ltb_spec 1 (List.length wpmHist)); [|lia].
  cbv zeta. rewrite reduce_plus.
  rewrite (reduce_sum (fun b => (b - sum (map WpmHistory.wpm wpmHist)
                                   / INR (List.length (map WpmHistory.wpm wpmHist))) ^ 2)).
  rewrite Rplus_0_l.
  unfold clamp, population_std_dev, population_variance, population_mean.
  now rewrite (Rmult_comm 2).
Qed.

Lemma clamp_bounds (x lo hi : R) : lo <= hi -> lo <= clamp x lo hi <= hi.
Proof.
  intros H. unfold clamp, Rmax, Rmin.
  destruct (Rle_dec hi x); destruct (Rle_dec lo _); lra.
Qed.

Lemma consistency_raw_bounds (wpmHist : list WpmHistory.t) :
  0 <= consistency_raw wpmHist <= 100.
Proof.
  destruct (Nat.lt_ge_cases (List.length wpmHist) 2) as [H|H].
  - rewrite consistency_raw_short by assumption. lra.
  - rewrite consistency_raw_long by assumption. apply clamp_bounds. lra.
Qed.

(** Two samples of 40 and 50 WPM deviate by 5 from their mean of 45. *)
Lemma population_std_dev_40_50 : population_std_dev [40; 50] = 5.
Proof.
  unfold population_std_dev, population_variance, population_mean.
  cbn [map sum fold_right List.length INR].
  apply sqrt_lem_1; [| lra | field].
  assert (H : ((40 - (40 + (50 + 0)) / (1 + 1)) ^ 2
               + ((50 - (40 + (50 + 0)) / (1 + 1)) ^ 2 + 0)) / (1 + 1) = 25) by field.
  rewrite H. lra.
Qed.


End Consistency.

(** ** Long texts *)

Section LongTexts.

Lemma length_repeat_char (c : ascii) (n : nat) : String.length (repeat_char c n) = n.
Proof. induction n as [|n IH]; simpl; congruence. Qed.

Lemma long_typed_length : String.length long_typed = Z.to_nat 25000.
Proof. apply length_repeat_char. Qed.

Lemma long_source_length : String.length long_source = Z.to_nat 24999.
Proof. apply length_repeat_char. Qed.

Lemma get_repeat_char (c : ascii) (n i : nat) :
  String.get i (repeat_char c n) = if i <? n then Some c else None.
Proof.
  revert i. induction n as [|n IH]; intros i; simpl.
  - reflexivity.
  - destruct i as [|i]; [reflexivity|]. rewrite IH. reflexivity.
Qed.

Lemma count_below_ext (p q : nat -> bool) (n : nat) :
  (forall i, i < n -> p i = q i) -> count_below p n = count_below q n.
Proof.
  intros H. unfold count_below. f_equal. apply filter_ext_in.
  intros i Hi. apply in_seq in Hi. apply H. lia.
Qed.

Lemma count_below_S (p : nat -> bool) (n : nat) :
  count_below p (S n) = count_below p n + (if p n then 1 else 0).
Proof.
  unfold count_below. rewrite seq_S, filter_app, length_app. simpl.
  destruct (p n); reflexivity.
Qed.

Lemma count_below_none (p : nat -> bool) (n : nat) :
  (forall i, i < n -> p i = false) -> count_below p n = 0.
Proof.
  intros H. induction n as [|n IH]; [reflexivity|].
  rewrite count_below_S, IH by (intros; apply H; lia).
  rewrite H by lia. reflexivity.
Qed.

(** Typing one character more than the source holds gives one error. *)
Lemma one_past_the_end (c : ascii) (m : nat) :
  count_below (fun i => negb (char_matchesb (repeat_char c (S m)) (repeat_char c m) i))
              (S m) = 1.
Proof.
  assert (E : forall i, i < S m ->
                char_matchesb (repeat_char c (S m)) (repeat_char c m) i = (i <? m)).
  { intros i Hi. unfold char_matchesb.
    rewrite length_repeat_char, !get_repeat_char.
    destruct (Nat.ltb_spec i m); [|reflexivity].
    destruct (Nat.ltb_spec i (S m)); [|lia].
    simpl. apply Ascii.eqb_refl. }
  rewrite count_below_S, count_below_none.
  - rewrite E by lia. now rewrite Nat.ltb_irrefl.
  - intros i Hi. rewrite E by lia.
    destruct (Nat.ltb_spec i m); [reflexivity | lia].
Qed.

Lemma long_typed_incorrect :
  count_below (fun i => negb (char_matchesb long_typed long_source i))
              (String.length long_typed) = 1.
Proof.
  rewrite long_typed_length. unfold long_typed, long_source.
  replace (Z.to_nat 25000) with (S (Z.to_nat 24999)).
  - apply one_past_the_end.
  - rewrite <- Z2Nat.inj_succ by lia. reflexivity.
Qed.

End LongTexts.

(** ** The session *)

Section Session.

Local Open Scope R_scope.

Lemma TestState_eqb_eq (a b : TestState) : TestState_eqb a b = true <-> a = b.
Proof. destruct a, b; simpl; split; intros H; congruence. Qed.

Lemma TestMode_eqb_eq (a b : TestMode) : TestMode_eqb a b = true <-> a = b.
Proof. destruct a, b; simpl; split; intros H; congruence. Qed.

(** *** The interval table *)

Lemma clearInterval_spec (h k : positive) (live : list positive) :
  In k (clearInterval h live) <-> In k live /\ k <> h.
Proof.
  unfold clearInterval. rewrite filter_In, negb_true_iff, Pos.eqb_neq. reflexivity.
Qed.

Lemma clearTimer_stops (ref : option positive) (live : list positive) (h : positive) :
  ref = Some h -> ~ In h (clearTimer ref live).
Proof.
  intros -> Hin. apply clearInterval_spec in Hin. now destruct Hin.
Qed.


(** *** [handleInputChange] *)

Lemma handleInputChange_inactive (value : string) (date : R) (s : AppState) :
  testState s <> active -> handleInputChange value date s = s.
Proof.
  intros H. unfold handleInputChange.
  destruct (TestState_eqb (testState s) active) eqn:E; [|reflexivity].
  apply TestState_eqb_eq in E. contradiction.
Qed.

Lemma handleInputChange_active (value : string) (date : R) (s : AppState) :
  testState s = active ->
  handleInputChange value date s =
  let timeElapsed := elapsed s in
  let wpmHistory' :=
    if sample_due timeElapsed (wpmHistory s)
    then wpmHistory s ++ [sample value timeElapsed]
    else wpmHistory s in
  let currentStats := calculateStats value (testText s) timeElapsed (wpmHistory s) in
  {| testText := testText s; customText := customText s; userInput := value;
     testState := if isCompleted value s then completed else active;
     difficulty := difficulty s; testMode := testMode s;
     targetTime := targetTime s; targetWords := targetWords s;
     startTime := startTime s; currentTime := currentTime s;
     wpmHistory := wpmHistory'; stats := currentStats;
     testResults :=
       if isCompleted value s
       then firstn 20 ({| TestResult.stats := currentStats;
                          TestResult.timestamp := date;
                          TestResult.difficulty := difficulty s;
                          TestResult.textLength := String.length (testText s) |}
                         :: testResults s)
       else testResults s;
     currentCharIndex := String.length value; showSettings := showSettings s;
     capsLockWarning := capsLockWarning s;
     timerRef := timerRef s;
     intervals := if isCompleted value s
                  then clearTimer (timerRef s) (intervals s)
                  else intervals s |}.
Proof.
  intros H. unfold handleInputChange. rewrite H. cbn [TestState_eqb negb].
  cbv zeta. destruct (isCompleted value s); reflexivity.
Qed.

(** *** The sampling condition *)

Lemma rem2_even (z : Z) : (Z.rem z 2 =? 0)%Z = true <-> Z.Even z.
Proof.
  rewrite Z.eqb_eq, Z.rem_divide by lia. unfold Z.divide, Z.Even.
  split; intros [m Hm]; exists m; lia.
Qed.

Lemma last_time_nil : last_time [] = None.
Proof. reflexivity. Qed.

Lemma last_time_app (hist : list WpmHistory.t) (h : WpmHistory.t) :
  last_time (hist ++ [h]) = Some (WpmHistory.time h).
Proof.
  unfold last_time, Array_at. rewrite length_app. cbn [List.length].
  replace (Z.of_nat (List.length hist + 1) - 1)%Z with (Z.of_nat (List.length hist)) by lia.
  destruct (Z.ltb_spec (Z.of_nat (List.length hist)) 0); [lia|].
  rewrite Nat2Z.id, nth_error_app2, Nat.sub_diag by lia. reflexivity.
Qed.

Lemma strict_neb_opt_true (x : R) (t : option R) :
  strict_neb_opt x t = true <-> t <> Some x.
Proof.
  destruct t as [y|]; simpl.
  - rewrite negb_true_iff. unfold strict_eqb.
    destruct (Req_dec_T x y); split; intros H; try easy; congruence.
  - split; intros; easy.
Qed.

Lemma sample_due_spec (timeElapsed : R) (hist : list WpmHistory.t) :
  sample_due timeElapsed hist = true <->
  0 < timeElapsed /\ Z.Even (Math_floor timeElapsed)
  /\ last_time hist <> Some (IZR (Math_floor timeElapsed)).
Proof.
  unfold sample_due.
  rewrite !andb_true_iff, gtb_true, rem2_even, strict_neb_opt_true. tauto.
Qed.

Lemma Math_floor_nonneg (x : R) : 0 <= x -> (0 <= Math_floor x)%Z.
Proof.
  intros H. destruct (Math_floor_bounds x) as [_ Hhi].
  apply Z.lt_succ_r. apply lt_IZR. rewrite succ_IZR. lra.
Qed.

(** *** The completion predicate *)

Lemma isCompleted_quote (value : string) (s : AppState) :
  testMode s = quote ->
  (isCompleted value s = true <-> String.length value = String.length (testText s)).
Proof.
  intros H. unfold isCompleted. rewrite H. cbn [TestMode_eqb andb orb].
  rewrite !orb_false_r. apply Nat.eqb_eq.
Qed.

Lemma isCompleted_time (value : string) (s : AppState) :
  testMode s = time ->
  (isCompleted value s = true <-> elapsed s >= targetTime s).
Proof.
  intros H. unfold isCompleted. rewrite H. cbn [TestMode_eqb andb orb].
  rewrite ?orb_false_r. apply geb_true.
Qed.

Lemma isCompleted_words (value : string) (s : AppState) :
  testMode s = words ->
  (isCompleted value s = true <->
   INR (List.length (split " "%char value)) >= targetWords s).
Proof.
  intros H. unfold isCompleted. rewrite H. cbn [TestMode_eqb andb orb].
  apply geb_true.
Qed.

(** *** Splitting on the space *)

Lemma split_not_nil (sep : ascii) (s : string) : split sep s <> [].
Proof.
  destruct s as [|c rest]; cbn [split]; [discriminate|].
  destruct (Ascii.eqb c sep); [discriminate|].
  destruct (split sep rest); discriminate.
Qed.

(** [split] yields one token more than the text has separators. *)
Lemma split_length (sep : ascii) (s : string) :
  List.length (split sep s)
  = S (List.length (filter (Ascii.eqb sep) (list_ascii_of_string s))).
Proof.
  induction s as [|c rest IH]; cbn [split list_ascii_of_string filter]; [reflexivity|].
  rewrite (Ascii.eqb_sym sep c).
  destruct (Ascii.eqb c sep).
  - cbn [List.length]. now rewrite IH.
  - destruct (split sep rest) as [|w ws] eqn:E.
    + now apply split_not_nil in E.
    + cbn [List.length] in *. exact IH.
Qed.

(** *** The history *)

Lemma firstn_cons_full (A : Type) (x : A) (l : list A) (n : nat) :
  List.length l = S n -> firstn (S n) (x :: l) = x :: removelast l.
Proof.
  intros H. cbn [firstn]. f_equal.
  rewrite removelast_firstn_len, H. reflexivity.
Qed.

End Session.

(** ** The example sessions *)

Section Examples.

Local Open Scope R_scope.

Lemma early_state_active : testState early_state = active.
Proof. reflexivity. Qed.

Lemma early_state_elapsed : elapsed early_state = 1 / 2.
Proof.
  unfold elapsed.
  change (currentTime early_state) with 1500.
  change (startTime early_state) with 1000. lra.
Qed.

Lemma early_state_history : wpmHistory early_state = [].
Proof. reflexivity. Qed.

Lemma Math_floor_half : Math_floor (1 / 2) = 0%Z.
Proof. apply Math_floor_spec. lra. Qed.

Lemma early_state_sample_due : sample_due (elapsed early_state) (wpmHistory early_state) = true.
Proof.
  apply sample_due_spec.
  rewrite early_state_elapsed, Math_floor_half, early_state_history.
  repeat split; [lra | exists 0%Z; reflexivity | discriminate].
Qed.

Lemma early_state_sample :
  sample "T" (elapsed early_state) = {| WpmHistory.time := 0; WpmHistory.wpm := 24 |}.
Proof.
  unfold sample. rewrite early_state_elapsed, Math_floor_half.
  f_equal. f_equal. apply Math_round_spec.
  cbn [String.length INR]. lra.
Qed.



End Examples.

(** ** Reachable states *)

Section Reachable.

Local Open Scope R_scope.

Lemma clearInterval_single (h : positive) : clearInterval h [h] = [].
Proof. unfold clearInterval. cbn [filter]. now rewrite Pos.eqb_refl. Qed.

Lemma timer_invariant_active (s : AppState) :
  testState s = active ->
  (timer_invariant s <-> exists h, timerRef s = Some h /\ intervals s = [h]).
Proof. intros H. unfold timer_invariant. rewrite H. reflexivity. Qed.

Lemma timer_invariant_inactive (s : AppState) :
  testState s <> active -> (timer_invariant s <-> intervals s = []).
Proof.
  intros H. unfold timer_invariant.
  destruct (testState s); try reflexivity. contradiction.
Qed.

(** Clearing the timer of a state that satisfies the invariant leaves no
    interval. *)
Lemma clearTimer_invariant (s : AppState) :
  timer_invariant s -> clearTimer (timerRef s) (intervals s) = [].
Proof.
  intros H. destruct (testState s) eqn:E.
  2:{ apply timer_invariant_active in H; [|assumption].
      destruct H as [h [Hr Hl]]. rewrite Hr, Hl. apply clearInterval_single. }
  all: apply timer_invariant_inactive in H; [|congruence];
    rewrite H; now destruct (timerRef s).
Qed.

(** The four things a key press can do: nothing, start, reset, or toggle
    the pause, each after the caps-lock warning is raised. *)
Lemma handleKeyDown_cases (key : string) (capsLock : bool) (rnd now1 now2 : R)
      (s : AppState) :
  let s1 := if capsLock then setCapsLockWarning true s else s in
  let s' := fst (handleKeyDown key capsLock rnd now1 now2 s) in
  s' = s1
  \/ (testState s1 = idle /\ s' = startTest rnd now1 now2 s1)
  \/ (testState s1 <> idle /\ s' = resetTest s1)
  \/ ((testState s1 = active \/ testState s1 = paused) /\ s' = pauseTest s1).
Proof.
  intros s1 s'.
  assert (Ht1 : testState s1 = testState s) by (subst s1; now destruct capsLock).
  subst s'. unfold handleKeyDown. fold s1. rewrite Ht1.
  destruct (String.eqb key "Tab"); [|destruct (String.eqb key "Escape")];
    destruct (testState s); cbn [fst];
    first [ now left
          | right; left; split; reflexivity
          | right; right; left; split; [discriminate | reflexivity]
          | right; right; right; split;
            [first [left; reflexivity | right; reflexivity] | reflexivity] ].
Qed.

(** A property that the caps-lock setter, [startTest], [resetTest] and
    [pauseTest] keep is kept by a key press. *)
Lemma handleKeyDown_preserves (P : AppState -> Prop) :
  (forall b s, P s -> P (setCapsLockWarning b s)) ->
  (forall rnd now1 now2 s, P s -> P (startTest rnd now1 now2 s)) ->
  (forall s, P s -> P (resetTest s)) ->
  (forall s, P s -> P (pauseTest s)) ->
  forall key capsLock rnd now1 now2 s,
    P s -> P (fst (handleKeyDown key capsLock rnd now1 now2 s)).
Proof.
  intros Hcaps Hstart Hreset Hpause key capsLock rnd now1 now2 s Hs.
  assert (Hs1 : P (if capsLock then setCapsLockWarning true s else s))
    by (destruct capsLock; auto).
  destruct (handleKeyDown_cases key capsLock rnd now1 now2 s)
    as [Heq|[[_ Heq]|[[_ Heq]|[_ Heq]]]]; rewrite Heq; auto.
Qed.

Lemma timer_invariant_handle (e : event) (s : AppState) :
  timer_invariant s -> enabled e s = true -> timer_invariant (handle e s).
Proof.
  assert (Hbasic : forall e s,
            match e with KeyDown _ _ _ _ _ => False | _ => True end ->
            timer_invariant s -> enabled e s = true -> timer_invariant (handle e s));
    [clear e s; intros e s Hk Hinv Hen
    |intros Hinv Hen; destruct e; try (now apply Hbasic);
     destruct (handleKeyDown_cases key capsLock rnd now1 now2 s)
       as [Heq|[[Ht Heq]|[[Ht Heq]|[Ht Heq]]]];
     cbn [handle]; rewrite Heq;
     assert (Hinv1 : timer_invariant
                       (if capsLock then setCapsLockWarning true s else s))
       by (now destruct capsLock);
     [ exact Hinv1
     | apply (Hbasic (StartTest rnd now1 now2)); [exact I | exact Hinv1 |];
       cbn [enabled]; now rewrite Ht
     | apply (Hbasic ResetTest); [exact I | exact Hinv1 |];
       cbn [enabled]; destruct (testState _); try reflexivity; now contradiction Ht
     | apply (Hbasic PauseTest); [exact I | exact Hinv1 |];
       cbn [enabled]; destruct Ht as [Ht|Ht]; now rewrite Ht ]].
  destruct e; cbn [handle enabled] in *; try contradiction.
  - (* startTest *)
    assert (Hl : intervals s = []).
    { apply timer_invariant_inactive; [|assumption].
      intros Ha. rewrite Ha in Hen. discriminate. }
    unfold startTest. rewrite Hl. unfold timer_invariant. cbn.
    eexists. split; reflexivity.
  - (* pauseTest *)
    unfold pauseTest. destruct (testState s) eqn:E; try discriminate.
    + unfold timer_invariant. cbn [testState intervals].
      now apply clearTimer_invariant.
    + assert (Hl : intervals s = []).
      { apply timer_invariant_inactive; [congruence | assumption]. }
      rewrite Hl. unfold timer_invariant. cbn. eexists. split; reflexivity.
  - (* resetTest *)
    unfold timer_invariant, resetTest. cbn [testState intervals].
    now apply clearTimer_invariant.
  - (* tick *)
    unfold tick. destruct (existsb (Pos.eqb h) (intervals s)); exact Hinv.
  - (* handleInputChange *)
    destruct (testState s) eqn:E.
    2:{ rewrite handleInputChange_active by assumption.
        unfold timer_invariant. cbn [testState intervals timerRef].
        destruct (isCompleted value s).
        - now apply clearTimer_invariant.
        - now apply timer_invariant_active in Hinv. }
    all: rewrite handleInputChange_inactive by congruence; exact Hinv.
  - exact Hinv.
  - exact Hinv.
  - exact Hinv.
  - exact Hinv.
  - exact Hinv.
  - exact Hinv.
Qed.

Lemma reachable_timer_invariant (s : AppState) : reachable s -> timer_invariant s.
Proof.
  induction 1 as [|e s Hr IH Hen].
  - reflexivity.
  - now apply timer_invariant_handle.
Qed.

Lemma started_state_reachable : reachable started_state.
Proof.
  apply (reachable_handle (StartTest 0 1000 1000) reachable_initial). reflexivity.
Qed.

Lemma early_state_reachable : reachable early_state.
Proof.
  apply (reachable_handle (Tick 2 1500) started_state_reachable). reflexivity.
Qed.

Lemma typing_state_reachable : reachable typing_state.
Proof.
  apply (reachable_handle (InputChange "T" 1500) early_state_reachable). reflexivity.
Qed.

End Reachable.

(** ** Binary64 statistics and sampling *)

Section Binary64.

Import Floats.
Local Open Scope float_scope.

Variable pow : float -> float -> float.



Lemma calculateStats_fields_f64 (input text : string) (timeElapsed : float)
      (wpmHist : list F64.WpmHistory.t) :
  F64.calculateStats pow input text timeElapsed wpmHist =
  let totalChars := String.length input in
  let correctChars := count_below (char_matchesb input text) totalChars in
  let incorrectChars := count_below (fun i => negb (char_matchesb input text i)) totalChars in
  {| F64.TypingStats.wpm := F64.netWpm totalChars incorrectChars timeElapsed;
     F64.TypingStats.rawWpm := F64.grossWpm totalChars timeElapsed;
     F64.TypingStats.accuracy := F64.round2 (F64.accuracy_raw correctChars totalChars);
     F64.TypingStats.correctChars := correctChars;
     F64.TypingStats.incorrectChars := incorrectChars;
     F64.TypingStats.totalChars := totalChars;
     F64.TypingStats.timeElapsed := timeElapsed;
     F64.TypingStats.consistency := F64.Math_round (F64.consistency_raw pow wpmHist) |}.
Proof. unfold F64.calculateStats. now rewrite score_chars_count. Qed.



(** *** The handler *)

Lemma list_eq_nil_or_snoc (A : Type) (l : list A) :
  l = [] \/ exists older h, l = older ++ [h].
Proof using.
  destruct l as [|x l]; [now left | right].
  destruct (@exists_last _ (x :: l)) as [older [h Hh]]; [discriminate|].
  now exists older, h.
Qed.

Lemma TestState_eqb_active (t : TestState) : TestState_eqb t active = true <-> t = active.
Proof using. destruct t; cbn; split; intros H; congruence. Qed.

Lemma handleInputChange_inactive_f64 (value : string) (date : float) (s : F64.AppState) :
  F64.testState s <> active -> F64.handleInputChange pow value date s = s.
Proof.
  intros H. unfold F64.handleInputChange.
  destruct (TestState_eqb (F64.testState s) active) eqn:E; [|reflexivity].
  apply TestState_eqb_active in E. contradiction.
Qed.

Lemma handleInputChange_wpmHistory_f64 (value : string) (date : float) (s : F64.AppState) :
  F64.testState s = active ->
  F64.wpmHistory (F64.handleInputChange pow value date s)
  = if F64.sample_due (F64.elapsed s) (F64.wpmHistory s)
    then F64.wpmHistory s ++ [F64.sample value (F64.elapsed s)]
    else F64.wpmHistory s.
Proof.
  intros H. unfold F64.handleInputChange. rewrite H. cbn [TestState_eqb negb].
  cbv zeta. destruct (F64.isCompleted value s); reflexivity.
Qed.

Lemma last_time_app_f64 (hist : list F64.WpmHistory.t) (h : F64.WpmHistory.t) :
  F64.last_time (hist ++ [h]) = Some (F64.WpmHistory.time h).
Proof using.
  unfold F64.last_time, Array_at. rewrite length_app. cbn [List.length].
  replace (Z.of_nat (List.length hist + 1) - 1)%Z with (Z.of_nat (List.length hist)) by lia.
  destruct (Z.ltb_spec (Z.of_nat (List.length hist)) 0); [lia|].
  rewrite Nat2Z.id, nth_error_app2, Nat.sub_diag by lia. reflexivity.
Qed.

(** The test of line 202, spelt out. *)
Lemma sample_due_spec_f64 (timeElapsed : float) (hist : list F64.WpmHistory.t) :
  F64.sample_due timeElapsed hist = true <->
  (0 <? timeElapsed) = true
  /\ (F64.rem (F64.Math_floor timeElapsed) 2 =? 0) = true
  /\ (forall older h, hist = older ++ [h] ->
                      (F64.Math_floor timeElapsed =? F64.WpmHistory.time h) = false).
Proof using.
  unfold F64.sample_due, F64.gtb. rewrite !andb_true_iff.
  assert (Hlast : F64.strict_neb_opt (F64.Math_floor timeElapsed) (F64.last_time hist) = true
                  <-> forall older h, hist = older ++ [h] ->
                        (F64.Math_floor timeElapsed =? F64.WpmHistory.time h) = false).
  { destruct (list_eq_nil_or_snoc hist) as [->|[older [h ->]]].
    - cbn. split; [|reflexivity]. intros _ older h H. destruct older; discriminate.
    - rewrite last_time_app_f64. cbn [F64.strict_neb_opt]. unfold F64.strict_neb.
      rewrite negb_true_iff. split.
      + intros H older' h' Heq. apply app_inj_tail in Heq. destruct Heq as [_ <-].
        exact H.
      + intros H. now apply (H older h). }
  rewrite Hlast.
  split; [intros [[H1 H2] H3] | intros [H1 [H2 H3]]]; repeat split; assumption.
Qed.

End Binary64.

(** * The claims of the specification about rounded values *)

Section ClaimsBinary64.

Import Floats.
Local Open Scope float_scope.
#[local] Set Warnings "-inexact-float".

(** C1. For every typed text, source text, elapsed time and sample list,
    [calculateStats] scores character [i] of the typed text as correct
    exactly when [i < len(sourceText)] and [typedText[i] == sourceText[i]]
    and as incorrect otherwise, also at every position past the end of the
    source text; [totalChars] is the length of the typed text; [accuracy]
    is [correctChars / totalChars * 100] rounded to two decimal places, and
    0 when nothing was typed.  For the source ["abc"], the typed text
    ["abx"] and 60 seconds it returns 2 correct, 1 incorrect and 66.67. *)
Theorem C1_scoring_and_accuracy
        (pow : float -> float -> float)
        (typedText sourceText : string) (elapsedSeconds : float)
        (samples : list F64.WpmHistory.t) :
  let st := F64.calculateStats pow typedText sourceText elapsedSeconds samples in
  (forall i c ic, (i < String.length typedText)%nat ->
     (char_matches typedText sourceText i ->
      score_step typedText sourceText (c, ic) i = (S c, ic))
     /\ (~ char_matches typedText sourceText i ->
         score_step typedText sourceText (c, ic) i = (c, S ic)))
  /\ (forall i c ic, (String.length sourceText <= i)%nat ->
                     score_step typedText sourceText (c, ic) i = (c, S ic))
  /\ F64.TypingStats.correctChars st =
     count_below (char_matchesb typedText sourceText) (String.length typedText)
  /\ F64.TypingStats.incorrectChars st =
     count_below (fun i => negb (char_matchesb typedText sourceText i))
                 (String.length typedText)
  /\ F64.TypingStats.totalChars st = String.length typedText
  /\ F64.TypingStats.accuracy st =
     (if (F64.TypingStats.totalChars st =? 0)%nat then 0
      else F64.round2 (F64.of_nat (F64.TypingStats.correctChars st)
                       / F64.of_nat (F64.TypingStats.totalChars st) * 100))
  /\ (sourceText = "abc"%string -> typedText = "abx"%string -> elapsedSeconds = 60 ->
      F64.TypingStats.correctChars st = 2%nat
      /\ F64.TypingStats.incorrectChars st = 1%nat
      /\ F64.TypingStats.accuracy st = 66.67).
Proof.
  intros st. subst st. rewrite calculateStats_fields_f64.
  cbn [F64.TypingStats.correctChars F64.TypingStats.incorrectChars
       F64.TypingStats.totalChars F64.TypingStats.accuracy].
  split; [|split; [|split; [|split; [|split; [|split]]]]]; try reflexivity.
  - intros i c ic _. rewrite score_step_eq. split; intros H.
    + apply char_matchesb_spec in H. now rewrite H.
    + apply char_matchesb_false in H. now rewrite H.
  - intros i c ic Hi. rewrite score_step_eq.
    replace (char_matchesb typedText sourceText i) with false; [reflexivity|].
    symmetry. apply char_matchesb_false. intros [Hlt _]. lia.
  - unfold F64.accuracy_raw.
    destruct (String.length typedText) as [|n]; reflexivity.
  - intros -> -> ->. vm_compute. repeat split.
Qed.

Lemma C1_scoring_and_accuracy_witness :
  F64.TypingStats.correctChars
    (F64.calculateStats F64.pow_exact_square "abx" "abc" 60 []) = 2%nat
  /\ F64.TypingStats.incorrectChars
       (F64.calculateStats F64.pow_exact_square "abx" "abc" 60 []) = 1%nat
  /\ F64.TypingStats.accuracy
       (F64.calculateStats F64.pow_exact_square "abx" "abc" 60 []) = 66.67
  /\ F64.TypingStats.accuracy
       (F64.calculateStats F64.pow_exact_square tie_typed tie_source 60 [])
     = 14.37.
Proof.
  split; [|split; [|split]];
    try (apply (@C1_scoring_and_accuracy F64.pow_exact_square "abx" "abc" 60 []);
         reflexivity).
  destruct (@C1_scoring_and_accuracy F64.pow_exact_square
              tie_typed tie_source 60 []) as (_ & _ & Hc & _ & Ht & Ha & _).
  rewrite Ha, Hc, Ht. vm_compute. reflexivity.
Defined.






(** C7, as stated, fails: half a second into the session
    [floor(elapsedSeconds)] is 0, which is not positive, and the first key
    still appends the sample [(0, 24)]. *)
Lemma C7_counterexample :
  F64.testState F64.early_state = active
  /\ F64.wpmHistory (F64.handleInputChange F64.pow_exact_square "T" 1500 F64.early_state)
     = F64.wpmHistory F64.early_state
       ++ [ {| F64.WpmHistory.time := 0; F64.WpmHistory.wpm := 24 |} ]
  /\ F64.elapsed F64.early_state = 0.5
  /\ (0 <? F64.Math_floor (F64.elapsed F64.early_state)) = false.
Proof. vm_compute. repeat split. Qed.

(** C7, amended.  On an input update a new sample
    [(floor(elapsedSeconds), wpm)] is appended only when the session is
    active, [elapsedSeconds > 0], [floor(elapsedSeconds)] is an even integer
    (0 included: its remainder by 2 is 0) and it differs from the time field
    of the last recorded sample, and in an active session it is appended
    whenever these hold; the recorded [wpm] is
    [(typedTextLength/5) / (elapsedSeconds/60)] rounded to the nearest
    integer. *)
Theorem C7_sampling
        (pow : float -> float -> float)
        (value : string) (date : float) (s : F64.AppState) :
  let te := F64.elapsed s in
  let hist := F64.wpmHistory s in
  let hist' := F64.wpmHistory (F64.handleInputChange pow value date s) in
  let new :=
    {| F64.WpmHistory.time := F64.Math_floor te;
       F64.WpmHistory.wpm :=
         F64.Math_round ((F64.of_nat (String.length value) / 5) / (te / 60)) |} in
  let due :=
    (0 <? te) = true
    /\ (F64.rem (F64.Math_floor te) 2 =? 0) = true
    /\ (forall older h, hist = older ++ [h] ->
                        (F64.Math_floor te =? F64.WpmHistory.time h) = false) in
  (hist' = hist \/ hist' = hist ++ [new])
  /\ (hist' <> hist -> F64.testState s = active /\ due)
  /\ (F64.testState s = active -> due -> hist' = hist ++ [new]).
Proof.
  intros te hist hist' new due.
  assert (Hdue : F64.sample_due te hist = true <-> due)
    by (unfold due; apply sample_due_spec_f64).
  destruct (TestState_eqb (F64.testState s) active) eqn:Ea.
  - apply TestState_eqb_active in Ea.
    assert (Hh' : hist' = if F64.sample_due te hist then hist ++ [new] else hist).
    { subst hist'. now rewrite handleInputChange_wpmHistory_f64. }
    rewrite Hh'. destruct (F64.sample_due te hist) eqn:E.
    + assert (Hd : due) by now apply Hdue.
      split; [now right | split; [|reflexivity]].
      intros _. split; [exact Ea | exact Hd].
    + split; [now left | split].
      * intros H. now contradiction H.
      * intros _ Hd. apply Hdue in Hd. discriminate.
  - assert (Hna : F64.testState s <> active).
    { intros H. apply TestState_eqb_active in H. congruence. }
    assert (Hh' : hist' = hist).
    { subst hist'. now rewrite handleInputChange_inactive_f64. }
    rewrite Hh'. split; [now left | split].
    + intros H. now contradiction H.
    + intros H. contradiction.
Qed.

Lemma C7_sampling_witness :
  F64.wpmHistory (F64.handleInputChange F64.pow_exact_square "T" 1500 F64.early_state)
  = [ {| F64.WpmHistory.time := 0; F64.WpmHistory.wpm := 24 |} ]
  /\ F64.wpmHistory
       (F64.handleInputChange F64.pow_exact_square "The" 15400 F64.later_state)
     = [ {| F64.WpmHistory.time := 14; F64.WpmHistory.wpm := 2 |} ].
Proof.
  split.
  - apply (proj2 (proj2 (@C7_sampling F64.pow_exact_square "T" 1500 F64.early_state))).
    + reflexivity.
    + split; [reflexivity | split; [reflexivity|]].
      intros older h H. destruct older; discriminate.
  - rewrite (proj2 (proj2 (@C7_sampling F64.pow_exact_square "The" 15400
                             F64.later_state))).
    + reflexivity.
    + reflexivity.
    + split; [reflexivity | split; [reflexivity|]].
      intros older h H. destruct older; discriminate.
Defined.

End ClaimsBinary64.

(** * The claims of the specification *)

Section Claims.

Local Open Scope R_scope.

(** C3. For every typed text, source text, elapsed time and sample list,
    the statistics returned by [calculateStats] satisfy
    [correctChars + incorrectChars = totalChars], [accuracy] in [0, 100]
    and [consistency] in [0, 100]. *)
Theorem C3_stats_invariant
        (typedText sourceText : string) (elapsedSeconds : R)
        (samples : list WpmHistory.t) :
  let st := calculateStats typedText sourceText elapsedSeconds samples in
  (TypingStats.correctChars st + TypingStats.incorrectChars st
   = TypingStats.totalChars st)%nat
  /\ 0 <= TypingStats.accuracy st <= 100
  /\ (0 <= TypingStats.consistency st <= 100)%Z.
Proof.
  intros st. subst st. stats_fields.
  split; [|split].
  - apply count_below_partition.
  - apply round2_bounds, accuracy_raw_bounds, count_below_le.
  - apply Math_round_between. apply consistency_raw_bounds.
Qed.

(** C8, as stated, fails: 25000 typed characters of which the last one
    lies past the end of the source text are not all matching, and still
    [accuracy] is 100, because 99.996 rounds to 100.00. *)
Lemma C8_counterexample :
  TypingStats.accuracy (calculateStats long_typed long_source 60 []) = 100
  /\ ~ (forall i, (i < String.length long_typed)%nat ->
                  char_matches long_typed long_source i).
Proof.
  split.
  - stats_fields.
    apply (@accuracy_100_iff _
             (count_below (fun i => negb (char_matchesb long_typed long_source i))
                          (String.length long_typed))).
    + apply count_below_partition.
    + rewrite long_typed_incorrect, long_typed_length. split.
      * apply Nat2Z.inj_lt. rewrite Z2Nat.id by lia. reflexivity.
      * rewrite Z2Nat.id by lia. cbn. discriminate.
  - intros H.
    destruct (H (Z.to_nat 24999)) as [Hlt _].
    + rewrite long_typed_length. apply Z2Nat.inj_lt; lia.
    + rewrite long_source_length in Hlt. lia.
Qed.

(** C8, amended.  In exact arithmetic [accuracy] is 100 if and only if the
    typed text is non-empty and at most one typed character in 20000 is
    scored incorrect; so for a typed text of fewer than 20000 characters it
    is 100 if and only if the text is non-empty and every character
    matches.  For the empty typed text it is 0, not 100. *)
Theorem C8_accuracy_100
        (typedText sourceText : string) (elapsedSeconds : R)
        (samples : list WpmHistory.t) :
  let st := calculateStats typedText sourceText elapsedSeconds samples in
  (TypingStats.accuracy st = 100 <->
   typedText <> EmptyString
   /\ (20000 * Z.of_nat (TypingStats.incorrectChars st)
       <= Z.of_nat (String.length typedText))%Z)
  /\ ((Z.of_nat (String.length typedText) < 20000)%Z ->
      (TypingStats.accuracy st = 100 <->
       typedText <> EmptyString
       /\ forall i, (i < String.length typedText)%nat ->
                    char_matches typedText sourceText i))
  /\ (typedText = EmptyString -> TypingStats.accuracy st = 0).
Proof.
  intros st. subst st. stats_fields.
  set (n := String.length typedText).
  set (ic := count_below (fun i => negb (char_matchesb typedText sourceText i)) n).
  assert (Hne : (0 < n)%nat <-> typedText <> EmptyString).
  { subst n. destruct typedText; simpl; split; intros H; try easy; lia. }
  assert (Hmain : round2 (accuracy_raw (count_below (char_matchesb typedText sourceText) n) n)
                  = 100 <->
                  typedText <> EmptyString /\ (20000 * Z.of_nat ic <= Z.of_nat n)%Z).
  { rewrite <- Hne. apply accuracy_100_iff. apply count_below_partition. }
  split; [exact Hmain | split].
  - intros Hshort. rewrite Hmain.
    assert (Hall : ic = 0%nat <->
                   forall i, (i < n)%nat -> char_matches typedText sourceText i).
    { subst ic. rewrite count_below_neg_zero.
      split; intros H i Hi; apply char_matchesb_spec; now apply H. }
    rewrite <- Hall. split; intros [H1 H2]; (split; [exact H1|]); lia.
  - intros ->. cbn [String.length]. rewrite accuracy_raw_zero. apply round2_zero.
Qed.

Lemma C8_accuracy_100_witness :
  TypingStats.accuracy (calculateStats "ab" "ab" 60 []) = 100
  /\ TypingStats.accuracy (calculateStats EmptyString "ab" 60 []) = 0.
Proof.
  split.
  - apply (C8_accuracy_100 "ab" "ab" 60 []).
    + simpl. lia.
    + split; [discriminate|].
      intros i Hi. apply char_matchesb_spec.
      destruct i as [|[|i]]; [reflexivity | reflexivity | simpl in Hi; lia].
  - apply (C8_accuracy_100 EmptyString "ab" 60 []). reflexivity.
Defined.

(** C2. While the session is active every input update evaluates the
    completion predicate, and the session completes exactly when it holds.
    It holds exactly when: in quote mode [len(typedText) = len(sourceText)];
    in timed mode [elapsedSeconds >= targetSeconds]; in word-count mode the
    number of tokens of the typed text split on the single space character
    is at least [targetWordCount].  With a target of 3 both ["a b c"] and
    ["a  b"] (double space, the empty token counted) complete the session. *)
Theorem C2_completion (value : string) (date : R) (s : AppState) :
  (testState s = active ->
   (testState (handleInputChange value date s) = completed
    <-> isCompleted value s = true)
   /\ (testState (handleInputChange value date s) = active
       <-> isCompleted value s = false))
  /\ (testMode s = quote ->
      (isCompleted value s = true
       <-> String.length value = String.length (testText s)))
  /\ (testMode s = time ->
      (isCompleted value s = true <-> elapsed s >= targetTime s))
  /\ (testMode s = words ->
      (isCompleted value s = true
       <-> INR (List.length (split " "%char value)) >= targetWords s))
  /\ (testMode s = words -> targetWords s = 3 ->
      split " "%char "a b c" = ["a"; "b"; "c"]%string
      /\ isCompleted "a b c" s = true
      /\ split " "%char "a  b" = ["a"; ""; "b"]%string
      /\ isCompleted "a  b" s = true).
Proof.
  split; [|split; [|split; [|split]]].
  - intros H. rewrite handleInputChange_active by assumption.
    cbn [testState]. destruct (isCompleted value s); split; split; congruence.
  - apply isCompleted_quote.
  - apply isCompleted_time.
  - apply isCompleted_words.
  - intros Hm Ht.
    split; [reflexivity | split; [|split; [reflexivity|]]].
    + apply isCompleted_words; [assumption|].
      rewrite Ht. cbn [split Ascii.eqb Bool.eqb List.length INR]. lra.
    + apply isCompleted_words; [assumption|].
      rewrite Ht. cbn [split Ascii.eqb Bool.eqb List.length INR]. lra.
Qed.

Lemma C2_completion_witness :
  isCompleted "a b c" three_words_state = true
  /\ isCompleted "a  b" three_words_state = true
  /\ testState (handleInputChange "a  b" 4000 three_words_state) = completed.
Proof.
  assert (H : isCompleted "a b c" three_words_state = true
              /\ isCompleted "a  b" three_words_state = true).
  { split; apply (C2_completion "a" 4000 three_words_state); reflexivity. }
  split; [apply H | split; [apply H|]].
  apply (C2_completion "a  b" 4000 three_words_state); [reflexivity | apply H].
Defined.

(** C6. Whenever the completion predicate fires during an active session,
    a result frozen from the final statistics is prepended to the history
    (newest at index 0) and the history is truncated to its 20 most recent
    entries; with the history already holding 20 entries the oldest entry
    is evicted and the length remains 20. *)
Theorem C6_history (value : string) (date : R) (s : AppState) :
  testState s = active ->
  isCompleted value s = true ->
  let s' := handleInputChange value date s in
  let result :=
    {| TestResult.stats :=
         calculateStats value (testText s) (elapsed s) (wpmHistory s);
       TestResult.timestamp := date;
       TestResult.difficulty := difficulty s;
       TestResult.textLength := String.length (testText s) |} in
  testState s' = completed
  /\ stats s' = TestResult.stats result
  /\ testResults s' = firstn history_capacity (result :: testResults s)
  /\ nth_error (testResults s') 0 = Some result
  /\ (forall k, (S k < history_capacity)%nat ->
                nth_error (testResults s') (S k) = nth_error (testResults s) k)
  /\ List.length (testResults s')
     = Nat.min history_capacity (S (List.length (testResults s)))
  /\ (List.length (testResults s) = history_capacity ->
      testResults s' = result :: removelast (testResults s)
      /\ List.length (testResults s') = history_capacity)
  /\ (forall h, timerRef s = Some h -> ~ In h (intervals s'))
  /\ (timer_invariant s -> intervals s' = []).
Proof.
  intros Ha Hc s' result. subst s'.
  rewrite handleInputChange_active by assumption.
  cbn [testState stats testResults intervals]. rewrite Hc.
  fold result. unfold history_capacity.
  split; [reflexivity | split; [reflexivity | split; [reflexivity|]]].
  split; [reflexivity | split; [|split; [|split; [|split]]]].
  - intros k Hk. rewrite nth_error_firstn.
    destruct (Nat.ltb_spec (S k) 20); [reflexivity | lia].
  - rewrite length_firstn. reflexivity.
  - intros Hlen. split.
    + now apply firstn_cons_full.
    + rewrite length_firstn. cbn [List.length]. rewrite Hlen. reflexivity.
  - intros h Hh. now apply clearTimer_stops.
  - apply clearTimer_invariant.
Qed.

Lemma C6_history_witness :
  List.length (testResults (handleInputChange "ab" 4000 full_history_state)) = 20%nat
  /\ testState (handleInputChange "ab" 4000 full_history_state) = completed.
Proof.
  split.
  - apply (C6_history "ab" 4000 full_history_state); reflexivity.
  - apply (C6_history "ab" 4000 full_history_state); reflexivity.
Defined.




(** C10. For every session state whose phase is not active (idle, paused
    or completed) an input update is a complete no-op: the typed text, the
    sample list, the last statistics, the phase and the history are left
    unchanged, no sample is taken and no completion check runs. *)
Theorem C10_inactive_noop (value : string) (date : R) (s : AppState) :
  testState s = idle \/ testState s = paused \/ testState s = completed ->
  let s' := handleInputChange value date s in
  s' = s
  /\ userInput s' = userInput s
  /\ wpmHistory s' = wpmHistory s
  /\ stats s' = stats s
  /\ testState s' = testState s
  /\ testResults s' = testResults s.
Proof.
  intros H s'. subst s'.
  rewrite handleInputChange_inactive.
  - repeat split.
  - destruct H as [H|[H|H]]; rewrite H; discriminate.
Qed.

Lemma C10_inactive_noop_witness :
  handleInputChange "x" 0 initialState = initialState
  /\ handleInputChange "x" 0 (pauseTest early_state) = pauseTest early_state.
Proof.
  split.
  - apply (C10_inactive_noop "x" 0 initialState). left. reflexivity.
  - apply (C10_inactive_noop "x" 0 (pauseTest early_state)). right. left. reflexivity.
Defined.

End Claims.


(** * Further properties of the component *)

(** ** Text selection *)

Section TextSelection.

Local Open Scope R_scope.

(** [Math.floor(Math.random() * n)] is an index of an array of [n] entries. *)
Lemma random_index (rnd : R) (n : nat) :
  0 <= rnd < 1 -> (0 < n)%nat ->
  (0 <= Math_floor (rnd * INR n) < Z.of_nat n)%Z.
Proof.
  intros [Hlo Hhi] Hn.
  assert (Hpos : 0 < INR n) by (apply lt_0_INR; lia).
  destruct (Math_floor_bounds (rnd * INR n)) as [Hf1 Hf2].
  split.
  - apply Math_floor_nonneg. apply Rmult_le_pos; lra.
  - apply lt_IZR. rewrite <- INR_IZR_INZ.
    apply Rle_lt_trans with (rnd * INR n); [exact Hf1|]. nra.
Qed.

Lemma Array_at_In (A : Type) (a : list A) (i : Z) :
  (0 <= i < Z.of_nat (List.length a))%Z ->
  exists x, Array_at a i = Some x /\ In x a.
Proof.
  intros [Hlo Hhi]. unfold Array_at.
  destruct (Z.ltb_spec i 0); [lia|].
  destruct (nth_error a (Z.to_nat i)) as [x|] eqn:E.
  - exists x. split; [reflexivity|]. now apply nth_error_In in E.
  - apply nth_error_None in E. lia.
Qed.

Lemma sampleTexts_lookup_length (d : Difficulty) :
  (0 < List.length (sampleTexts_lookup d))%nat.
Proof. destruct d; cbn; lia. Qed.

Lemma sampleTexts_nonempty (d : Difficulty) (t : string) :
  In t (sampleTexts_lookup d) -> t <> EmptyString.
Proof.
  destruct d; cbn [sampleTexts_lookup sampleTexts.easy sampleTexts.medium
                   sampleTexts.hard sampleTexts.custom In];
    intros H; repeat (destruct H as [<-|H]; [discriminate|]); destruct H.
Qed.

Lemma generateText_pool (customText : string) (rnd : R) (d : Difficulty) :
  0 <= rnd < 1 ->
  Difficulty_eqb d custom && negb (String.eqb (trim customText) EmptyString) = false ->
  In (generateText customText rnd d) (sampleTexts_lookup d).
Proof.
  intros Hr Hc. unfold generateText. rewrite Hc.
  destruct (@Array_at_In _ (sampleTexts_lookup d)
              (Math_floor (rnd * INR (List.length (sampleTexts_lookup d)))))
    as [x [Hx Hin]].
  - apply random_index; [assumption | apply sampleTexts_lookup_length].
  - now rewrite Hx.
Qed.

(** X1. For [Math.random()] in [[0, 1)], [generateText] returns the trimmed
    custom text when the difficulty is custom and the custom text is not
    blank, and otherwise a member of the pool of the difficulty (for the
    custom difficulty, the placeholder text); it never returns the empty
    string. *)
Theorem X1_generateText (customText : string) (rnd : R) (d : Difficulty) :
  0 <= rnd < 1 ->
  (d = custom -> trim customText <> EmptyString ->
   generateText customText rnd d = trim customText)
  /\ (d <> custom \/ trim customText = EmptyString ->
      In (generateText customText rnd d) (sampleTexts_lookup d))
  /\ generateText customText rnd d <> EmptyString.
Proof.
  intros Hr.
  destruct (Difficulty_eqb d custom && negb (String.eqb (trim customText) EmptyString))
    eqn:E.
  - apply andb_true_iff in E. destruct E as [Hd Ht].
    apply negb_true_iff, String.eqb_neq in Ht.
    assert (Hg : generateText customText rnd d = trim customText).
    { unfold generateText. rewrite Hd.
      apply String.eqb_neq in Ht. now rewrite Ht. }
    split; [intros; exact Hg | split].
    + intros [Hn|He]; [|contradiction].
      destruct d; try discriminate. now contradiction Hn.
    + now rewrite Hg.
  - pose proof (generateText_pool customText d Hr E) as Hin.
    split; [|split].
    + intros -> Ht. cbn [Difficulty_eqb andb] in E.
      apply negb_false_iff, String.eqb_eq in E. contradiction.
    + intros _. exact Hin.
    + now apply sampleTexts_nonempty in Hin.
Qed.

Lemma X1_generateText_witness :
  generateText "  my text " 0 custom = "my text"%string
  /\ In (generateText "   " 0 custom) (sampleTexts_lookup custom).
Proof.
  split.
  - apply (@X1_generateText "  my text " 0 custom); [lra | reflexivity | discriminate].
  - apply (@X1_generateText "   " 0 custom); [lra|]. right. reflexivity.
Defined.

End TextSelection.

(** ** More on the statistics *)

Section MoreStats.

Local Open Scope R_scope.

Lemma Math_round_mono (x y : R) : x <= y -> (Math_round x <= Math_round y)%Z.
Proof.
  intros H.
  destruct (Math_round_bounds x) as [Hx1 Hx2].
  destruct (Math_round_bounds y) as [Hy1 Hy2].
  apply Z.lt_succ_r. apply lt_IZR. rewrite succ_IZR. lra.
Qed.

Lemma Math_round_nonneg (x : R) : 0 <= x -> (0 <= Math_round x)%Z.
Proof.
  intros H. rewrite <- (Math_round_IZR 0). now apply Math_round_mono.
Qed.

Lemma grossWpm_nonneg (totalChars : nat) (timeElapsed : R) :
  (0 <= grossWpm totalChars timeElapsed)%Z.
Proof.
  destruct (Rlt_le_dec 0 timeElapsed) as [H|H].
  - rewrite grossWpm_pos by assumption. apply Math_round_nonneg.
    assert (Hn : 0 <= INR totalChars) by apply pos_INR.
    apply Rmult_le_pos; [lra|].
    left. apply Rinv_0_lt_compat. lra.
  - rewrite grossWpm_nonpos by assumption. lia.
Qed.

Lemma errorsPerMinute_nonneg (incorrectChars : nat) (timeElapsed : R) :
  0 <= errorsPerMinute incorrectChars timeElapsed.
Proof.
  destruct (Rlt_le_dec 0 timeElapsed) as [H|H].
  - rewrite errorsPerMinute_pos by assumption.
    assert (Hn : 0 <= INR incorrectChars) by apply pos_INR.
    apply Rmult_le_pos; [lra|].
    left. apply Rinv_0_lt_compat. lra.
  - rewrite errorsPerMinute_nonpos by assumption. lra.
Qed.

Lemma netWpm_le_gross (totalChars incorrectChars : nat) (timeElapsed : R) :
  (netWpm totalChars incorrectChars timeElapsed <= grossWpm totalChars timeElapsed)%Z.
Proof.
  unfold netWpm. apply Z.max_lub; [apply grossWpm_nonneg|].
  rewrite <- (Math_round_IZR (grossWpm totalChars timeElapsed)) at 2.
  apply Math_round_mono.
  pose proof (errorsPerMinute_nonneg incorrectChars timeElapsed). lra.
Qed.

Lemma netWpm_no_errors (totalChars : nat) (timeElapsed : R) :
  netWpm totalChars 0 timeElapsed = grossWpm totalChars timeElapsed.
Proof.
  unfold netWpm.
  assert (He : errorsPerMinute 0 timeElapsed = 0).
  { unfold errorsPerMinute. destruct (gtb _ _); [|reflexivity].
    cbn [INR]. unfold Rdiv. apply Rmult_0_l. }
  rewrite He, Rminus_0_r, Math_round_IZR.
  apply Z.max_r, grossWpm_nonneg.
Qed.

(** X2. The net WPM returned by [calculateStats] is never negative and
    never above the raw WPM, and the two are equal when no typed character
    is scored incorrect. *)
Theorem X2_net_le_raw (input text : string) (timeElapsed : R)
        (wpmHist : list WpmHistory.t) :
  let st := calculateStats input text timeElapsed wpmHist in
  (0 <= TypingStats.wpm st <= TypingStats.rawWpm st)%Z
  /\ (TypingStats.incorrectChars st = 0%nat ->
      TypingStats.wpm st = TypingStats.rawWpm st).
Proof.
  intros st. subst st. stats_fields. split; [split|].
  - apply netWpm_nonneg.
  - apply netWpm_le_gross.
  - intros ->. apply netWpm_no_errors.
Qed.

Lemma X2_net_le_raw_witness :
  TypingStats.wpm (calculateStats "ab" "abc" 30 [])
  = TypingStats.rawWpm (calculateStats "ab" "abc" 30 []).
Proof.
  apply (X2_net_le_raw "ab" "abc" 30 []).
  rewrite calculateStats_fields. reflexivity.
Defined.

(** *** Typing the source text, and typing on *)

Lemma count_below_all (p : nat -> bool) (n : nat) :
  (forall i, (i < n)%nat -> p i = true) -> count_below p n = n.
Proof.
  intros H.
  pose proof (count_below_partition p n) as Hp.
  rewrite (@count_below_none (fun i => negb (p i)) n) in Hp.
  - lia.
  - intros i Hi. now rewrite H.
Qed.

Lemma count_below_ltb (m k : nat) :
  count_below (fun i => (i <? m)%nat) (m + k) = m.
Proof.
  induction k as [|k IH].
  - rewrite Nat.add_0_r. apply count_below_all.
    intros i Hi. now apply Nat.ltb_lt.
  - rewrite Nat.add_succ_r, count_below_S, IH.
    destruct (Nat.ltb_spec (m + k) m); lia.
Qed.

Lemma string_length_append (s t : string) :
  String.length (s ++ t) = (String.length s + String.length t)%nat.
Proof. induction s as [|c s IH]; cbn; [reflexivity | now rewrite IH]. Qed.

Lemma char_matchesb_append (text extra : string) (i : nat) :
  char_matchesb (text ++ extra) text i = (i <? String.length text)%nat.
Proof.
  unfold char_matchesb.
  destruct (Nat.ltb_spec i (String.length text)) as [H|H]; [|reflexivity].
  cbn [andb]. rewrite <- append_correct1 by assumption.
  apply option_ascii_eqb_eq. reflexivity.
Qed.

Lemma char_matchesb_prefix (input rest : string) (i : nat) :
  (i < String.length input)%nat -> char_matchesb input (input ++ rest) i = true.
Proof.
  intros H. unfold char_matchesb.
  rewrite string_length_append.
  destruct (Nat.ltb_spec i (String.length input + String.length rest)); [|lia].
  cbn [andb]. rewrite <- append_correct1 by assumption.
  apply option_ascii_eqb_eq. reflexivity.
Qed.

(** X3. Typing the whole source text and then any further characters
    scores every character of the source text correct and every further
    character incorrect; typing a prefix of the source text scores no
    character incorrect. *)
Theorem X3_typing_on (text extra : string) (timeElapsed : R)
        (wpmHist : list WpmHistory.t) :
  (let st := calculateStats (text ++ extra) text timeElapsed wpmHist in
   TypingStats.correctChars st = String.length text
   /\ TypingStats.incorrectChars st = String.length extra)
  /\ (let st := calculateStats text (text ++ extra) timeElapsed wpmHist in
      TypingStats.correctChars st = String.length text
      /\ TypingStats.incorrectChars st = 0%nat).
Proof.
  split; intros st; subst st; stats_fields.
  - rewrite string_length_append.
    assert (Hc : count_below (char_matchesb (text ++ extra) text)
                             (String.length text + String.length extra)
                 = String.length text).
    { rewrite <- (count_below_ltb (String.length text) (String.length extra)) at 2.
      apply count_below_ext. intros i _. apply char_matchesb_append. }
    split; [exact Hc|].
    pose proof (count_below_partition (char_matchesb (text ++ extra) text)
                  (String.length text + String.length extra)) as Hp.
    lia.
  - assert (Hc : count_below (char_matchesb text (text ++ extra)) (String.length text)
                 = String.length text).
    { apply count_below_all. intros i Hi. now apply char_matchesb_prefix. }
    split; [exact Hc|].
    pose proof (count_below_partition (char_matchesb text (text ++ extra))
                  (String.length text)) as Hp.
    lia.
Qed.

End MoreStats.

(** ** More on the consistency score *)

Section MoreConsistency.

Local Open Scope R_scope.







End MoreConsistency.

(** ** Invariants of the reachable states *)

(** Splits a goal about [handle e s] into one goal per handler and per
    branch of the handler; the change event of the input and the key press
    are left folded. *)
Ltac handle_cases e s :=
  destruct e; cbn [handle];
  [ unfold startTest; destruct (setInterval (intervals s))
  | unfold pauseTest; destruct (testState s) eqn:?;
    [ | | | destruct (setInterval (intervals s)) ]
  | unfold resetTest
  | unfold tick; destruct (existsb _ (intervals s))
  |
  | unfold setTestMode
  | unfold setTargetTime
  | unfold setTargetWords
  | unfold setDifficulty
  | unfold setCustomText
  |
  | unfold capsLockTimeout, setCapsLockWarning ];
  cbn [testText customText userInput testState difficulty testMode targetTime
       targetWords startTime currentTime wpmHistory stats testResults
       currentCharIndex showSettings capsLockWarning timerRef intervals].

Section Invariants.

Local Open Scope R_scope.

Lemma calculateStats_wellformed (input text : string) (timeElapsed : R)
      (wpmHist : list WpmHistory.t) :
  stats_wellformed (calculateStats input text timeElapsed wpmHist).
Proof.
  unfold stats_wellformed. stats_fields.
  split; [|split; [|split; [|split]]].
  - apply count_below_partition.
  - apply round2_bounds, accuracy_raw_bounds, count_below_le.
  - apply Math_round_between. apply consistency_raw_bounds.
  - apply netWpm_nonneg.
  - apply netWpm_le_gross.
Qed.

Lemma initialStats_wellformed : stats_wellformed initialStats.
Proof.
  unfold stats_wellformed, initialStats. cbn. repeat split; try lia; lra.
Qed.

(** How an input change of an active session moves each field. *)
Lemma handleInputChange_cases (value : string) (date : R) (s : AppState) :
  handleInputChange value date s = s
  \/ (testState s = active
      /\ handleInputChange value date s
         = handle (InputChange value date) s
      /\ stats (handleInputChange value date s)
         = calculateStats value (testText s) (elapsed s) (wpmHistory s)
      /\ userInput (handleInputChange value date s) = value
      /\ currentCharIndex (handleInputChange value date s) = String.length value
      /\ (testState (handleInputChange value date s) = active
          \/ testState (handleInputChange value date s) = completed)
      /\ wpmHistory (handleInputChange value date s)
         = (if sample_due (elapsed s) (wpmHistory s)
            then wpmHistory s ++ [sample value (elapsed s)]
            else wpmHistory s)
      /\ (testResults (handleInputChange value date s) = testResults s
          \/ testResults (handleInputChange value date s)
             = firstn 20
                 ({| TestResult.stats :=
                       calculateStats value (testText s) (elapsed s) (wpmHistory s);
                     TestResult.timestamp := date;
                     TestResult.difficulty := difficulty s;
                     TestResult.textLength := String.length (testText s) |}
                    :: testResults s))).
Proof.
  destruct (TestState_eqb (testState s) active) eqn:E.
  - apply TestState_eqb_eq in E. right.
    rewrite handleInputChange_active by assumption.
    cbn [stats userInput currentCharIndex testState wpmHistory testResults].
    split; [exact E|]. split.
    { cbn [handle]. now rewrite handleInputChange_active. }
    repeat (split; [reflexivity|]).
    destruct (isCompleted value s); split; auto.
  - left. apply handleInputChange_inactive.
    intros H. apply TestState_eqb_eq in H. congruence.
Qed.

(** *** The history and the statistics *)

Lemma In_firstn (A : Type) (n : nat) (l : list A) (x : A) :
  In x (firstn n l) -> In x l.
Proof.
  intros H. rewrite <- (firstn_skipn n l). apply in_or_app. now left.
Qed.

Lemma history_invariant_handle (e : event) (s : AppState) :
  history_invariant s -> history_invariant (handle e s).
Proof.
  assert (Hbasic : forall e s,
            match e with KeyDown _ _ _ _ _ => False | _ => True end ->
            history_invariant s -> history_invariant (handle e s)).
  { clear e s. intros e s Hk.
    intros Hinv. handle_cases e s; try (exfalso; exact Hk); try exact Hinv.
    destruct (handleInputChange_cases value date s)
      as [->|(_ & _ & Hst & _ & _ & _ & _ & Hres)]; [exact Hinv|].
    destruct Hinv as (Hlen & Hstats & Hall).
    unfold history_invariant. rewrite Hst.
    split; [|split].
    - destruct Hres as [->| ->]; [exact Hlen|].
      rewrite length_firstn. apply Nat.le_min_l.
    - apply calculateStats_wellformed.
    - destruct Hres as [->| ->]; [exact Hall|].
      apply Forall_forall. intros r Hr. apply In_firstn in Hr.
      destruct Hr as [<-|Hr].
      + apply calculateStats_wellformed.
      + revert r Hr. now apply Forall_forall. }
  intros Hinv. destruct e; try (now apply Hbasic).
  cbn [handle]. apply handleKeyDown_preserves; try assumption.
  - intros b s0 H. exact H.
  - intros r a b s0 H. exact (Hbasic (StartTest r a b) s0 I H).
  - intros s0 H. exact (Hbasic ResetTest s0 I H).
  - intros s0 H. exact (Hbasic PauseTest s0 I H).
Qed.

Lemma reachable_history_invariant (s : AppState) : reachable s -> history_invariant s.
Proof.
  induction 1 as [|e s _ IH _].
  - split; [cbn; lia | split; [apply initialStats_wellformed | constructor]].
  - now apply history_invariant_handle.
Qed.

End Invariants.

Section MoreInvariants.

Local Open Scope R_scope.

(** *** The cursor *)

Lemma cursor_invariant_handle (e : event) (s : AppState) :
  cursor_invariant s -> cursor_invariant (handle e s).
Proof.
  assert (Hbasic : forall e s,
            match e with KeyDown _ _ _ _ _ => False | _ => True end ->
            cursor_invariant s -> cursor_invariant (handle e s)).
  { clear e s. intros e s Hk.
    intros Hinv. unfold cursor_invariant in *.
    handle_cases e s; try (exfalso; exact Hk); try exact Hinv;
      try (split; [reflexivity | intros; try discriminate; split; reflexivity]);
      try (destruct Hinv as [Hc Hi]; split; [exact Hc | intros; discriminate]).
    - destruct Hinv as [Hc Hi]. split; [exact Hc | intros _; now apply Hi].
    - destruct Hinv as [Hc Hi]. split; [exact Hc | intros H; congruence].
    - destruct (handleInputChange_cases value date s)
        as [->|(_ & _ & _ & Hu & Hc & Ht & _ & _)]; [exact Hinv|].
      rewrite Hu, Hc. split; [reflexivity|].
      intros Hidle. destruct Ht as [Ht|Ht]; congruence. }
  intros Hinv. destruct e; try (now apply Hbasic).
  cbn [handle]. apply handleKeyDown_preserves; try assumption.
  - intros b s0 H. exact H.
  - intros r a b s0 H. exact (Hbasic (StartTest r a b) s0 I H).
  - intros s0 H. exact (Hbasic ResetTest s0 I H).
  - intros s0 H. exact (Hbasic PauseTest s0 I H).
Qed.

Lemma reachable_cursor_invariant (s : AppState) : reachable s -> cursor_invariant s.
Proof.
  induction 1 as [|e s _ IH _].
  - split; [reflexivity | intros _; split; reflexivity].
  - now apply cursor_invariant_handle.
Qed.

(** *** The samples *)

Lemma sample_wellformed_due (value : string) (timeElapsed : R)
      (hist : list WpmHistory.t) :
  sample_due timeElapsed hist = true ->
  sample_wellformed (sample value timeElapsed)
  /\ last_time hist <> Some (WpmHistory.time (sample value timeElapsed)).
Proof.
  intros H. apply sample_due_spec in H. destruct H as (Hpos & Heven & Hlast).
  split; [|exact Hlast].
  exists (Math_floor timeElapsed),
         (Math_round (INR (String.length value) / 5 / (timeElapsed / 60))).
  repeat split.
  - apply Math_floor_nonneg. lra.
  - exact Heven.
  - apply Math_round_nonneg.
    assert (Hn : 0 <= INR (String.length value)) by apply pos_INR.
    apply Rmult_le_pos; [lra|]. left. apply Rinv_0_lt_compat. lra.
Qed.

Lemma samples_built_handle (e : event) (s : AppState) :
  samples_built (wpmHistory s) -> samples_built (wpmHistory (handle e s)).
Proof.
  assert (Hbasic : forall e s,
            match e with KeyDown _ _ _ _ _ => False | _ => True end ->
            samples_built (wpmHistory s) -> samples_built (wpmHistory (handle e s))).
  { clear e s. intros e s Hk.
    intros Hinv.
    handle_cases e s; try (exfalso; exact Hk); try exact Hinv; try constructor.
    destruct (handleInputChange_cases value date s)
      as [->|(_ & _ & _ & _ & _ & _ & Hh & _)]; [exact Hinv|].
    rewrite Hh. destruct (sample_due (elapsed s) (wpmHistory s)) eqn:E; [|exact Hinv].
    destruct (sample_wellformed_due value _ _ E) as [Hw Hl].
    now constructor. }
  intros Hinv. destruct e; try (now apply Hbasic).
  cbn [handle]. apply handleKeyDown_preserves; try assumption.
  - intros b s0 H. exact H.
  - intros r a b s0 H. exact (Hbasic (StartTest r a b) s0 I H).
  - intros s0 H. exact (Hbasic ResetTest s0 I H).
  - intros s0 H. exact (Hbasic PauseTest s0 I H).
Qed.

Lemma reachable_samples_built (s : AppState) :
  reachable s -> samples_built (wpmHistory s).
Proof.
  induction 1 as [|e s _ IH _].
  - constructor.
  - now apply samples_built_handle.
Qed.

Lemma samples_built_wellformed (hist : list WpmHistory.t) :
  samples_built hist -> Forall sample_wellformed hist.
Proof.
  induction 1 as [|hist h _ IH Hw _]; [constructor|].
  apply Forall_app. split; [exact IH | now constructor].
Qed.

Lemma samples_built_adjacent (hist : list WpmHistory.t) :
  samples_built hist ->
  forall before a b after,
    hist = before ++ a :: b :: after -> WpmHistory.time a <> WpmHistory.time b.
Proof.
  induction 1 as [|hist h _ IH _ Hlast]; intros before a b after Heq.
  - destruct before; discriminate.
  - destruct (@exists_last _ (b :: after)) as [mid [z Hz]]; [discriminate|].
    destruct mid as [|m mid].
    + (* [b] is the appended sample *)
      cbn in Hz. injection Hz as Hb Ha. subst after z.
      change (before ++ [a; b]) with (before ++ [a] ++ [b]) in Heq.
      rewrite app_assoc in Heq. apply app_inj_tail in Heq.
      destruct Heq as [-> ->].
      rewrite last_time_app in Hlast. congruence.
    + cbn in Hz. injection Hz as Hb Ha. subst b after.
      change (before ++ a :: m :: mid ++ [z])
        with (before ++ (a :: m :: mid) ++ [z]) in Heq.
      rewrite app_assoc in Heq. apply app_inj_tail in Heq.
      destruct Heq as [-> _].
      now apply (IH before a m mid).
Qed.

End MoreInvariants.

Section ReachableProperties.

Local Open Scope R_scope.

(** X6. In every state the component can reach from the initial render by
    the controls of the page, input changes, key presses (Tab, Escape and any
    other key, with or without caps lock), ticks and caps-lock timeouts, an
    active test has exactly one live interval, the one [timerRef] holds, and
    in every other phase no interval is live: starting, pausing, resuming,
    completing and resetting never leave a second or an orphaned tick source
    behind. *)
Theorem X6_one_tick_source (s : AppState) :
  reachable s ->
  (testState s = active -> exists h, timerRef s = Some h /\ intervals s = [h])
  /\ (testState s <> active -> intervals s = []).
Proof.
  intros Hr. apply reachable_timer_invariant in Hr. split; intros H.
  - now apply timer_invariant_active in Hr.
  - now apply timer_invariant_inactive in Hr.
Qed.

Lemma X6_one_tick_source_witness :
  intervals (pauseTest early_state) = []
  /\ (exists h, timerRef early_state = Some h /\ intervals early_state = [h])
  /\ intervals (handle (KeyDown "Escape" true 0 0 0) early_state) = [].
Proof.
  split; [|split].
  - apply (@X6_one_tick_source (pauseTest early_state)).
    + apply (reachable_handle PauseTest early_state_reachable). reflexivity.
    + discriminate.
  - apply (@X6_one_tick_source early_state).
    + apply early_state_reachable.
    + reflexivity.
  - apply (@X6_one_tick_source (handle (KeyDown "Escape" true 0 0 0) early_state)).
    + apply (reachable_handle (KeyDown "Escape" true 0 0 0) early_state_reachable).
      reflexivity.
    + discriminate.
Defined.

(** X7. In every reachable state (key presses and caps-lock timeouts
    included) the history holds at most 20 results, and
    the current statistics and the statistics frozen in every result satisfy
    [correctChars + incorrectChars = totalChars], accuracy and consistency in
    [0, 100] and [0 <= wpm <= rawWpm]. *)
Theorem X7_history_wellformed (s : AppState) :
  reachable s ->
  (List.length (testResults s) <= 20)%nat
  /\ stats_wellformed (stats s)
  /\ (forall r, In r (testResults s) -> stats_wellformed (TestResult.stats r)).
Proof.
  intros Hr. apply reachable_history_invariant in Hr.
  destruct Hr as (Hlen & Hst & Hall).
  split; [exact Hlen | split; [exact Hst|]].
  now apply Forall_forall.
Qed.

Lemma X7_history_wellformed_witness :
  (List.length (testResults typing_state) <= 20)%nat
  /\ stats_wellformed (stats typing_state).
Proof.
  split; apply (@X7_history_wellformed typing_state typing_state_reachable).
Defined.

(** X8. In every reachable state (key presses and caps-lock timeouts
    included) the cursor index is the length of the typed text, and an idle
    component holds no typed text and no samples. *)
Theorem X8_cursor (s : AppState) :
  reachable s ->
  currentCharIndex s = String.length (userInput s)
  /\ (testState s = idle -> userInput s = EmptyString /\ wpmHistory s = []).
Proof. apply reachable_cursor_invariant. Qed.

Lemma X8_cursor_witness :
  currentCharIndex typing_state = String.length (userInput typing_state).
Proof. apply (@X8_cursor typing_state typing_state_reachable). Defined.

(** X9. In every reachable state (key presses and caps-lock timeouts
    included) each recorded sample has an even,
    non-negative whole number of seconds as its time and a non-negative
    whole number as its WPM, and two neighbouring samples never carry the
    same time. *)
Theorem X9_samples (s : AppState) :
  reachable s ->
  (forall h, In h (wpmHistory s) -> sample_wellformed h)
  /\ (forall before a b after,
        wpmHistory s = before ++ a :: b :: after ->
        WpmHistory.time a <> WpmHistory.time b).
Proof.
  intros Hr. apply reachable_samples_built in Hr. split.
  - apply Forall_forall. now apply samples_built_wellformed.
  - now apply samples_built_adjacent.
Qed.

Lemma X9_samples_witness : Forall sample_wellformed (wpmHistory typing_state).
Proof.
  apply Forall_forall. apply (@X9_samples typing_state typing_state_reachable).
Defined.

End ReachableProperties.

(** ** Input changes, ticks and pauses *)

Section InputAndClock.

Local Open Scope R_scope.

Lemma elapsed_handleInputChange (value : string) (date : R) (s : AppState) :
  elapsed (handleInputChange value date s) = elapsed s.
Proof.
  destruct (TestState_eqb (testState s) active) eqn:E.
  - apply TestState_eqb_eq in E. now rewrite handleInputChange_active.
  - rewrite handleInputChange_inactive; [reflexivity|].
    intros H. apply TestState_eqb_eq in H. congruence.
Qed.

Lemma sample_due_after (value : string) (timeElapsed : R) (hist : list WpmHistory.t) :
  sample_due timeElapsed
    (if sample_due timeElapsed hist then hist ++ [sample value timeElapsed] else hist)
  = false.
Proof.
  destruct (sample_due timeElapsed hist) eqn:E; [|exact E].
  apply not_true_is_false. intros H.
  apply sample_due_spec in H. destruct H as (_ & _ & Hlast).
  apply Hlast. now rewrite last_time_app.
Qed.

Lemma handleInputChange_testState (value : string) (date : R) (s : AppState) :
  testState s = active ->
  testState (handleInputChange value date s)
  = if isCompleted value s then completed else active.
Proof. intros H. now rewrite handleInputChange_active. Qed.

Lemma handleInputChange_wpmHistory (value : string) (date : R) (s : AppState) :
  testState s = active ->
  wpmHistory (handleInputChange value date s)
  = if sample_due (elapsed s) (wpmHistory s)
    then wpmHistory s ++ [sample value (elapsed s)]
    else wpmHistory s.
Proof. intros H. now rewrite handleInputChange_active. Qed.

Lemma handleInputChange_stats (value : string) (date : R) (s : AppState) :
  testState s = active ->
  stats (handleInputChange value date s)
  = calculateStats value (testText s) (elapsed s) (wpmHistory s).
Proof. intros H. now rewrite handleInputChange_active. Qed.

(** X10. Two input changes with no tick between them record at most one
    sample: whatever the second change types, it leaves the sample list as
    the first change left it. *)
Theorem X10_one_sample_per_reading (v1 v2 : string) (d1 d2 : R) (s : AppState) :
  wpmHistory (handleInputChange v2 d2 (handleInputChange v1 d1 s))
  = wpmHistory (handleInputChange v1 d1 s).
Proof.
  destruct (TestState_eqb (testState s) active) eqn:E.
  - apply TestState_eqb_eq in E.
    pose proof (@handleInputChange_testState v1 d1 s E) as Ht.
    destruct (isCompleted v1 s).
    + rewrite (@handleInputChange_inactive v2 d2 (handleInputChange v1 d1 s));
        [reflexivity | rewrite Ht; discriminate].
    + rewrite (@handleInputChange_wpmHistory v2 d2 (handleInputChange v1 d1 s)) by exact Ht.
      rewrite elapsed_handleInputChange, (@handleInputChange_wpmHistory v1 d1 s E).
      now rewrite sample_due_after.
  - assert (Hna : testState s <> active).
    { intros H. apply TestState_eqb_eq in H. congruence. }
    now rewrite !(@handleInputChange_inactive _ _ s Hna).
Qed.

(** X11. The statistics of an input change are computed from the sample
    list as it was before the change: a sample the change itself records
    does not enter its consistency score.  So the change that records the
    second sample of a session still reports a consistency of 100. *)
Theorem X11_stats_use_previous_samples (value : string) (date : R) (s : AppState) :
  testState s = active ->
  let s' := handleInputChange value date s in
  TypingStats.consistency (stats s') = Math_round (consistency_raw (wpmHistory s))
  /\ (List.length (wpmHistory s) = 1%nat ->
      sample_due (elapsed s) (wpmHistory s) = true ->
      List.length (wpmHistory s') = 2%nat
      /\ TypingStats.consistency (stats s') = 100%Z).
Proof.
  intros Ha s'. subst s'.
  rewrite (@handleInputChange_stats value date s Ha), calculateStats_fields.
  cbn [TypingStats.consistency].
  split; [reflexivity|].
  intros Hlen Hdue.
  rewrite (@handleInputChange_wpmHistory value date s Ha), Hdue, length_app, Hlen.
  split; [reflexivity|].
  rewrite consistency_raw_short by lia. apply Math_round_IZR.
Qed.

Lemma one_sample_state_due :
  sample_due (elapsed one_sample_state) (wpmHistory one_sample_state) = true.
Proof.
  apply sample_due_spec.
  assert (He : elapsed one_sample_state = 9 / 2).
  { unfold elapsed. cbn [currentTime startTime one_sample_state]. lra. }
  assert (Hf : Math_floor (9 / 2) = 4%Z) by (apply Math_floor_spec; lra).
  rewrite He, Hf. split; [lra | split].
  - exists 2%Z. reflexivity.
  - cbn. intros H. injection H as H. lra.
Qed.

Lemma X11_stats_use_previous_samples_witness :
  List.length (wpmHistory (handleInputChange "the qu" 5500 one_sample_state)) = 2%nat
  /\ TypingStats.consistency (stats (handleInputChange "the qu" 5500 one_sample_state))
     = 100%Z.
Proof.
  apply (@X11_stats_use_previous_samples "the qu" 5500 one_sample_state).
  - reflexivity.
  - reflexivity.
  - apply one_sample_state_due.
Defined.

End InputAndClock.

Section PauseAndTick.

Local Open Scope R_scope.

(** X12. Pausing an active test stops its interval and changes no field
    but the phase; resuming starts a new interval, and after the round trip
    every field is as before except the handle in [timerRef] and the
    interval table, which hold the new interval.  The start time is kept, so
    the time spent paused counts as elapsed time: after the resume, the
    first tick at [now] shows [(now - startTime) / 1000]. *)
Theorem X12_pause_resume (s : AppState) :
  testState s = active ->
  timer_invariant s ->
  let s1 := pauseTest s in
  let s2 := pauseTest s1 in
  s1 =
    {| testText := testText s; customText := customText s; userInput := userInput s;
       testState := paused; difficulty := difficulty s; testMode := testMode s;
       targetTime := targetTime s; targetWords := targetWords s;
       startTime := startTime s; currentTime := currentTime s;
       wpmHistory := wpmHistory s; stats := stats s; testResults := testResults s;
       currentCharIndex := currentCharIndex s; showSettings := showSettings s;
       capsLockWarning := capsLockWarning s;
       timerRef := timerRef s; intervals := [] |}
  /\ (exists h',
        s2 =
        {| testText := testText s; customText := customText s; userInput := userInput s;
           testState := active; difficulty := difficulty s; testMode := testMode s;
           targetTime := targetTime s; targetWords := targetWords s;
           startTime := startTime s; currentTime := currentTime s;
           wpmHistory := wpmHistory s; stats := stats s; testResults := testResults s;
           currentCharIndex := currentCharIndex s; showSettings := showSettings s;
           capsLockWarning := capsLockWarning s;
           timerRef := Some h'; intervals := [h'] |})
  /\ timer_invariant s2
  /\ (forall h now, timerRef s2 = Some h ->
                    elapsed (tick h now s2) = (now - startTime s) / 1000).
Proof.
  intros Ha Hinv s1 s2.
  apply timer_invariant_active in Hinv; [|assumption].
  destruct Hinv as [h0 [Href Hlive]].
  assert (H1 : s1 =
    {| testText := testText s; customText := customText s; userInput := userInput s;
       testState := paused; difficulty := difficulty s; testMode := testMode s;
       targetTime := targetTime s; targetWords := targetWords s;
       startTime := startTime s; currentTime := currentTime s;
       wpmHistory := wpmHistory s; stats := stats s; testResults := testResults s;
       currentCharIndex := currentCharIndex s; showSettings := showSettings s;
       capsLockWarning := capsLockWarning s;
       timerRef := timerRef s; intervals := [] |}).
  { subst s1. unfold pauseTest. rewrite Ha, Hlive. rewrite Href at 2.
    cbn [clearTimer]. now rewrite clearInterval_single. }
  assert (H2 : s2 =
    {| testText := testText s; customText := customText s; userInput := userInput s;
       testState := active; difficulty := difficulty s; testMode := testMode s;
       targetTime := targetTime s; targetWords := targetWords s;
       startTime := startTime s; currentTime := currentTime s;
       wpmHistory := wpmHistory s; stats := stats s; testResults := testResults s;
       currentCharIndex := currentCharIndex s; showSettings := showSettings s;
       capsLockWarning := capsLockWarning s;
       timerRef := Some 2%positive; intervals := [2%positive] |}).
  { subst s2. rewrite H1. reflexivity. }
  split; [exact H1 | split; [now exists 2%positive | split]].
  - rewrite H2. unfold timer_invariant. cbn. eexists. split; reflexivity.
  - rewrite H2. cbn [timerRef]. intros h now Hh. injection Hh as <-.
    unfold tick. cbn [intervals existsb Pos.eqb orb]. reflexivity.
Qed.

Lemma X12_pause_resume_witness :
  timer_invariant (pauseTest (pauseTest early_state))
  /\ elapsed (tick 2 9000 (pauseTest (pauseTest early_state)))
     = (9000 - startTime early_state) / 1000.
Proof.
  assert (Hinv : timer_invariant early_state)
    by apply reachable_timer_invariant, early_state_reachable.
  destruct (@X12_pause_resume early_state eq_refl Hinv) as (_ & _ & Ht & He).
  split; [exact Ht | apply He; reflexivity].
Defined.

(** X13. In a reachable state a tick can move the clock only while the
    test is active and only through the interval [timerRef] holds: the
    callback of any other handle, and every callback after a pause, a
    completion or a reset, leaves the whole state unchanged.  The tick of
    the live interval sets the current time and changes no other field, so
    it never completes a test. *)
Theorem X13_tick (s : AppState) (h : positive) (now : R) :
  reachable s ->
  (testState s <> active \/ timerRef s <> Some h -> tick h now s = s)
  /\ (testState s = active -> timerRef s = Some h ->
      tick h now s =
      {| testText := testText s; customText := customText s; userInput := userInput s;
         testState := testState s; difficulty := difficulty s; testMode := testMode s;
         targetTime := targetTime s; targetWords := targetWords s;
         startTime := startTime s; currentTime := now;
         wpmHistory := wpmHistory s; stats := stats s; testResults := testResults s;
         currentCharIndex := currentCharIndex s; showSettings := showSettings s;
         capsLockWarning := capsLockWarning s;
         timerRef := timerRef s; intervals := intervals s |}).
Proof.
  intros Hr. apply reachable_timer_invariant in Hr.
  destruct (TestState_eqb (testState s) active) eqn:E.
  - apply TestState_eqb_eq in E.
    apply timer_invariant_active in Hr; [|assumption].
    destruct Hr as [h0 [Href Hlive]].
    unfold tick. rewrite Hlive at 1 2. cbn [existsb]. rewrite orb_false_r.
    split.
    + intros [Hn|Hn]; [contradiction|].
      destruct (Pos.eqb_spec h h0) as [->|_]; [|reflexivity].
      now contradiction Hn.
    + intros _ Hh. rewrite Href in Hh. injection Hh as <-.
      now rewrite Pos.eqb_refl.
  - assert (Hna : testState s <> active).
    { intros H. apply TestState_eqb_eq in H. congruence. }
    apply timer_invariant_inactive in Hr; [|assumption].
    unfold tick. rewrite Hr at 1. cbn [existsb].
    split; [reflexivity | contradiction].
Qed.

Lemma X13_tick_witness :
  tick 2 9000 (pauseTest early_state) = pauseTest early_state
  /\ currentTime (tick 2 9000 early_state) = 9000.
Proof.
  split.
  - apply (@X13_tick (pauseTest early_state) 2 9000).
    + apply (reachable_handle PauseTest early_state_reachable). reflexivity.
    + left. discriminate.
  - rewrite (proj2 (@X13_tick early_state 2 9000 early_state_reachable)
               eq_refl eq_refl).
    reflexivity.
Defined.

(** X14. In word-count mode the completion predicate counts separators,
    not words: it holds exactly when the typed text contains at least
    [targetWords - 1] space characters, wherever they stand. *)
Theorem X14_words_count_spaces (value : string) (s : AppState) :
  testMode s = words ->
  (isCompleted value s = true <->
   INR (S (List.length (filter (Ascii.eqb " "%char) (list_ascii_of_string value))))
   >= targetWords s).
Proof.
  intros H. rewrite (@isCompleted_words value s H). now rewrite split_length.
Qed.

Lemma X14_words_count_spaces_witness :
  isCompleted "a  " three_words_state = true.
Proof.
  apply (@X14_words_count_spaces "a  " three_words_state); [reflexivity|].
  cbn [list_ascii_of_string filter Ascii.eqb Bool.eqb List.length targetWords
       three_words_state INR]. lra.
Defined.

End PauseAndTick.

(** ** The keyboard *)

Section Keyboard.

Local Open Scope R_scope.

Lemma timer_invariant_setCapsLockWarning (b : bool) (s : AppState) :
  timer_invariant (setCapsLockWarning b s) <-> timer_invariant s.
Proof. reflexivity. Qed.

(** X15. [handleKeyDown] acts on two keys only.  Tab starts a test from the
    idle phase and resets a completed one, and does nothing to an active or
    paused test; Escape pauses an active test and resumes a paused one, and
    does nothing otherwise; every other key leaves the state alone.  Apart
    from that a key pressed with Caps Lock on raises the warning and
    schedules one timeout, except that the reset clears the warning again.
    The handler keeps the agreement between the phase and the tick source. *)
Theorem X15_keys (key : string) (capsLock : bool) (rnd now1 now2 : R) (s : AppState) :
  let s1 := if capsLock then setCapsLockWarning true s else s in
  let r := handleKeyDown key capsLock rnd now1 now2 s in
  snd r = (if capsLock then 1%nat else 0%nat)
  /\ (key <> "Tab"%string -> key <> "Escape"%string -> fst r = s1)
  /\ (key = "Tab"%string ->
      (testState s = idle -> fst r = startTest rnd now1 now2 s1
                             /\ testState (fst r) = active)
      /\ (testState s = completed -> fst r = resetTest s1
                                     /\ testState (fst r) = idle
                                     /\ capsLockWarning (fst r) = false)
      /\ (testState s = active \/ testState s = paused -> fst r = s1))
  /\ (key = "Escape"%string ->
      (testState s = active -> fst r = pauseTest s1 /\ testState (fst r) = paused)
      /\ (testState s = paused -> fst r = pauseTest s1 /\ testState (fst r) = active)
      /\ (testState s = idle \/ testState s = completed -> fst r = s1))
  /\ (timer_invariant s -> timer_invariant (fst r)).
Proof.
  intros s1 r.
  assert (Ht1 : testState s1 = testState s) by (subst s1; now destruct capsLock).
  assert (Hinv1 : timer_invariant s -> timer_invariant s1)
    by (subst s1; now destruct capsLock).
  assert (Hstart : testState (startTest rnd now1 now2 s1) = active).
  { unfold startTest. now destruct (setInterval (intervals s1)). }
  assert (Hpause : forall t, testState s = t ->
            testState (pauseTest s1)
            = match t with active => paused | paused => active | x => x end).
  { intros t Ht. unfold pauseTest. rewrite Ht1, Ht.
    destruct t; try reflexivity; now rewrite Ht1. }
  subst r. unfold handleKeyDown. fold s1.
  destruct (String.eqb_spec key "Tab") as [->|Hn1];
    [|destruct (String.eqb_spec key "Escape") as [->|Hn2]].
  - (* Tab *)
    destruct (testState s) eqn:E; cbn [fst snd];
      (split; [reflexivity|]);
      (split; [intros H; now contradiction H|]);
      (split; [intros _|split; [intros H; discriminate|]]).
    + repeat split; try (intros; discriminate); try reflexivity; try exact Hstart.
      intros [H|H]; discriminate.
    + intros Hinv.
      apply (@timer_invariant_handle (StartTest rnd now1 now2) s1); [auto|].
      cbn [enabled]. now rewrite Ht1.
    + repeat split; try (intros; discriminate); reflexivity.
    + auto.
    + repeat split; try (intros; discriminate); try reflexivity.
      intros [H|H]; discriminate.
    + intros Hinv.
      apply (@timer_invariant_handle ResetTest s1); [auto|].
      cbn [enabled]. now rewrite Ht1.
    + repeat split; try (intros; discriminate); reflexivity.
    + auto.
  - (* Escape *)
    destruct (testState s) eqn:E; cbn [fst snd];
      (split; [reflexivity|]);
      (split; [intros _ H; now contradiction H|]);
      (split; [intros H; discriminate|split; [intros _|]]).
    + repeat split; try (intros; discriminate); reflexivity.
    + auto.
    + repeat split; try (intros; discriminate); try reflexivity.
      * exact (Hpause active eq_refl).
      * intros [H|H]; discriminate.
    + intros Hinv.
      apply (@timer_invariant_handle PauseTest s1); [auto|].
      cbn [enabled]. now rewrite Ht1.
    + repeat split; try (intros; discriminate); reflexivity.
    + auto.
    + repeat split; try (intros; discriminate); try reflexivity.
      * exact (Hpause paused eq_refl).
      * intros [H|H]; discriminate.
    + intros Hinv.
      apply (@timer_invariant_handle PauseTest s1); [auto|].
      cbn [enabled]. now rewrite Ht1.
  - (* any other key *)
    cbn [fst snd].
    split; [reflexivity|]. split; [reflexivity|].
    split; [intros H; contradiction|]. split; [intros H; contradiction|]. auto.
Qed.

Lemma X15_keys_witness :
  fst (handleKeyDown "Tab" true 0 7000 7000 early_state)
  = setCapsLockWarning true early_state
  /\ testState (fst (handleKeyDown "Escape" false 0 7000 7000 early_state)) = paused.
Proof.
  split.
  - destruct (@X15_keys "Tab" true 0 7000 7000 early_state) as (_ & _ & HTab & _).
    apply (HTab eq_refl). left. reflexivity.
  - destruct (@X15_keys "Escape" false 0 7000 7000 early_state) as (_ & _ & _ & HEsc & _).
    apply (HEsc eq_refl). reflexivity.
Defined.

End Keyboard.

(** ** The highlighted text *)

Section Highlight.

Lemma index_strict_eqb_option (s t : string) (i : nat) :
  index_strict_eqb s t i = option_ascii_eqb (String.get i s) (String.get i t).
Proof. reflexivity. Qed.

Lemma get_Some_lt (s : string) (i : nat) :
  (i < String.length s)%nat <-> String.get i s <> None.
Proof.
  revert i. induction s as [|c s IH]; intros i; cbn.
  - split; [lia | congruence].
  - destruct i as [|i]; [split; [discriminate | lia]|].
    rewrite <- IH. lia.
Qed.

(** X16. With the cursor index at the length of the typed text, every
    position of the source text is rendered in exactly one of four ways:
    green when it is typed and scored correct, red when it is typed and
    scored incorrect, as the cursor when it is the first untyped position,
    and grey when it lies beyond the cursor. *)
Theorem X16_character_class (index : nat) (s : AppState) :
  currentCharIndex s = String.length (userInput s) ->
  (index < String.length (testText s))%nat ->
  (getCharacterClass index s = "text-green-600 bg-green-100"%string
   <-> (index < String.length (userInput s))%nat
       /\ char_matches (userInput s) (testText s) index)
  /\ (getCharacterClass index s = "text-red-600 bg-red-100"%string
      <-> (index < String.length (userInput s))%nat
          /\ ~ char_matches (userInput s) (testText s) index)
  /\ (getCharacterClass index s = "bg-blue-200 animate-pulse"%string
      <-> index = String.length (userInput s))
  /\ (getCharacterClass index s = "text-gray-400"%string
      <-> (String.length (userInput s) < index)%nat).
Proof.
  intros Hc Hi. unfold getCharacterClass. rewrite Hc.
  assert (Hm : index_strict_eqb (userInput s) (testText s) index
               = char_matchesb (userInput s) (testText s) index).
  { unfold char_matchesb. rewrite index_strict_eqb_option.
    destruct (Nat.ltb_spec index (String.length (testText s))); [reflexivity | lia]. }
  rewrite Hm.
  destruct (Nat.leb_spec (String.length (userInput s)) index) as [Hle|Hlt];
    [destruct (Nat.eqb_spec index (String.length (userInput s))) as [He|Hne]
    |destruct (char_matchesb (userInput s) (testText s) index) eqn:E;
     [apply char_matchesb_spec in E | apply char_matchesb_false in E]];
    (split; [|split; [|split]]);
    (split; intros H;
     first [ discriminate H | reflexivity | lia | assumption
           | split; [lia | assumption]
           | destruct H as [H1 H2]; first [lia | contradiction] ]).
Qed.

Lemma typing_state_text :
  userInput typing_state = "T"%string
  /\ testText typing_state = nth 0 sampleTexts.medium EmptyString.
Proof.
  unfold typing_state.
  rewrite handleInputChange_active by apply early_state_active.
  cbn [userInput testText]. split; [reflexivity|].
  change (testText early_state) with (generateText EmptyString 0 medium).
  unfold generateText. cbn [Difficulty_eqb andb sampleTexts_lookup].
  rewrite Rmult_0_l. rewrite (@Math_floor_spec 0%R 0) by lra. reflexivity.
Qed.

Lemma X16_character_class_witness :
  getCharacterClass 0 typing_state = "text-green-600 bg-green-100"%string.
Proof.
  destruct typing_state_text as [Hin Htext].
  apply (@X16_character_class 0 typing_state).
  - apply reachable_cursor_invariant, typing_state_reachable.
  - rewrite Htext. cbn. lia.
  - split.
    + rewrite Hin. cbn. lia.
    + apply char_matchesb_spec. rewrite Hin, Htext. reflexivity.
Defined.

End Highlight.

Section HighlightCounts.

Lemma count_below_restrict (p : nat -> bool) (n m : nat) :
  count_below (fun i => (i <? m)%nat && p i) n = count_below p (Nat.min n m).
Proof.
  induction n as [|n IH]; [reflexivity|].
  rewrite count_below_S, IH.
  destruct (Nat.ltb_spec n m) as [Hlt|Hge].
  - replace (Nat.min (S n) m) with (S n) by lia.
    replace (Nat.min n m) with n by lia.
    now rewrite count_below_S.
  - replace (Nat.min (S n) m) with m by lia.
    replace (Nat.min n m) with m by lia.
    cbn [andb]. lia.
Qed.

Lemma filter_map_length (A B : Type) (p : B -> bool) (f : A -> B) (l : list A) :
  List.length (filter p (map f l)) = List.length (filter (fun x => p (f x)) l).
Proof.
  induction l as [|x l IH]; cbn [map filter]; [reflexivity|].
  destruct (p (f x)); cbn [List.length]; now rewrite IH.
Qed.

(** The scored counts, position by position of the shorter text. *)
Lemma count_matches_min (input text : string) :
  count_below (char_matchesb input text) (String.length input)
  = count_below (fun i => index_strict_eqb input text i)
                (Nat.min (String.length text) (String.length input)).
Proof.
  unfold char_matchesb.
  rewrite (count_below_restrict
             (fun i => option_ascii_eqb (String.get i input) (String.get i text))).
  now rewrite Nat.min_comm.
Qed.

Lemma rendered_green_count (s : AppState) :
  List.length (filter (String.eqb "text-green-600 bg-green-100") (renderedClasses s))
  = count_below (char_matchesb (userInput s) (testText s)) (String.length (userInput s)).
Proof.
  unfold renderedClasses. rewrite filter_map_length, count_matches_min.
  fold (count_below
          (fun x => String.eqb "text-green-600 bg-green-100" (getCharacterClass x s))
          (String.length (testText s))).
  rewrite <- count_below_restrict.
  apply count_below_ext. intros i _. unfold getCharacterClass.
  rewrite Nat.ltb_antisym.
  destruct (String.length (userInput s) <=? i)%nat.
  - cbn [negb andb]. now destruct (i =? currentCharIndex s)%nat.
  - cbn [negb andb]. now destruct (index_strict_eqb (userInput s) (testText s) i).
Qed.

Lemma rendered_red_count (s : AppState) :
  (String.length (userInput s) <= String.length (testText s))%nat ->
  List.length (filter (String.eqb "text-red-600 bg-red-100") (renderedClasses s))
  = count_below (fun i => negb (char_matchesb (userInput s) (testText s) i))
                (String.length (userInput s)).
Proof.
  intros Hle. unfold renderedClasses. rewrite filter_map_length.
  fold (count_below
          (fun x => String.eqb "text-red-600 bg-red-100" (getCharacterClass x s))
          (String.length (testText s))).
  rewrite (@count_below_ext _
             (fun i => (i <? String.length (userInput s))%nat
                       && negb (char_matchesb (userInput s) (testText s) i))).
  - rewrite count_below_restrict. f_equal. lia.
  - intros i Hi. unfold getCharacterClass, char_matchesb.
    rewrite Nat.ltb_antisym.
    destruct (Nat.ltb_spec i (String.length (testText s))); [|lia].
    destruct (String.length (userInput s) <=? i)%nat.
    + cbn [negb andb]. now destruct (i =? currentCharIndex s)%nat.
    + cbn [negb andb]. rewrite index_strict_eqb_option.
      now destruct (option_ascii_eqb _ _).
Qed.

(** X17. After an input change of an active session the number of green
    positions of the rendered text is the [correctChars] of the statistics
    just computed; the number of red positions is their [incorrectChars] as
    long as the typed text is not longer than the source text (characters
    typed past its end are counted incorrect and not rendered). *)
Theorem X17_highlight_counts (value : string) (date : R) (s : AppState) :
  testState s = active ->
  let s' := handleInputChange value date s in
  List.length (filter (String.eqb "text-green-600 bg-green-100") (renderedClasses s'))
  = TypingStats.correctChars (stats s')
  /\ ((String.length value <= String.length (testText s))%nat ->
      List.length (filter (String.eqb "text-red-600 bg-red-100") (renderedClasses s'))
      = TypingStats.incorrectChars (stats s')).
Proof.
  intros Ha s'.
  assert (Hu : userInput s' = value)
    by (subst s'; now rewrite handleInputChange_active).
  assert (Ht : testText s' = testText s)
    by (subst s'; now rewrite handleInputChange_active).
  assert (Hs : stats s' = calculateStats value (testText s) (elapsed s) (wpmHistory s))
    by (subst s'; now rewrite handleInputChange_active).
  rewrite Hs, calculateStats_fields.
  cbn [TypingStats.correctChars TypingStats.incorrectChars].
  split.
  - now rewrite rendered_green_count, Hu, Ht.
  - intros Hle. rewrite rendered_red_count; rewrite Hu, Ht; [reflexivity | exact Hle].
Qed.

Lemma X17_highlight_counts_witness :
  List.length (filter (String.eqb "text-green-600 bg-green-100")
                      (renderedClasses (handleInputChange "xb" 4000 full_history_state)))
  = TypingStats.correctChars (stats (handleInputChange "xb" 4000 full_history_state))
  /\ List.length (filter (String.eqb "text-red-600 bg-red-100")
                         (renderedClasses (handleInputChange "xb" 4000 full_history_state)))
     = TypingStats.incorrectChars (stats (handleInputChange "xb" 4000 full_history_state)).
Proof.
  destruct (@X17_highlight_counts "xb" 4000 full_history_state eq_refl) as [Hg Hr].
  split; [exact Hg | apply Hr]. cbn. lia.
Defined.

End HighlightCounts.

(** ** The time display *)

Section TimeDisplay.

Local Open Scope R_scope.

Lemma Math_floor_minus_IZR (x : R) (k : Z) :
  Math_floor (x - IZR k) = (Math_floor x - k)%Z.
Proof.
  apply Math_floor_spec. rewrite minus_IZR.
  destruct (Math_floor_bounds x). lra.
Qed.

(** Whole minutes of a number of seconds are the whole minutes of its whole
    seconds. *)
Lemma Math_floor_div_60 (x : R) : Math_floor (x / 60) = (Math_floor x / 60)%Z.
Proof.
  apply Math_floor_spec.
  destruct (Math_floor_bounds x) as [Hlo Hhi].
  pose proof (Z.div_mod (Math_floor x) 60 ltac:(lia)) as Hdm.
  pose proof (Z.mod_pos_bound (Math_floor x) 60 ltac:(lia)) as Hm.
  set (q := (Math_floor x / 60)%Z) in *.
  set (r := (Math_floor x mod 60)%Z) in *.
  assert (Hn : IZR (Math_floor x) = 60 * IZR q + IZR r).
  { rewrite Hdm, plus_IZR, mult_IZR. reflexivity. }
  assert (Hr0 : 0 <= IZR r) by (apply IZR_le; lia).
  assert (Hr1 : IZR r <= 59) by (apply IZR_le; lia).
  lra.
Qed.

Lemma trunc_nonneg (x : R) : 0 <= x -> JSText.trunc x = Math_floor x.
Proof. intros H. unfold JSText.trunc. destruct (Rle_dec 0 x); [reflexivity | lra]. Qed.

Lemma rem_60_nonneg (x : R) :
  0 <= x -> Math_floor (JSText.rem x 60) = (Math_floor x mod 60)%Z.
Proof.
  intros H. unfold JSText.rem.
  rewrite trunc_nonneg by lra.
  rewrite Math_floor_div_60.
  replace (60 * IZR (Math_floor x / 60)) with (IZR (60 * (Math_floor x / 60)))
    by (rewrite mult_IZR; reflexivity).
  rewrite Math_floor_minus_IZR. rewrite Z.mod_eq by lia. reflexivity.
Qed.

Lemma two_digits (r : Z) :
  (0 <= r < 60)%Z ->
  String.length (JSText.padStart 2 "0"%char (JSText.toString r)) = 2%nat.
Proof.
  intros Hr.
  assert (Hall : forallb
            (fun k => (String.length
                         (JSText.padStart 2 "0"%char (JSText.toString (Z.of_nat k)))
                       =? 2)%nat)
            (seq 0 60) = true) by (vm_compute; reflexivity).
  rewrite forallb_forall in Hall.
  specialize (Hall (Z.to_nat r)).
  rewrite Z2Nat.id in Hall by lia.
  apply Nat.eqb_eq, Hall, in_seq. lia.
Qed.

(** X18. For a non-negative number of seconds below [10^15] [formatTime]
    shows the whole seconds [n] as the decimal minutes [n / 60], a colon and
    the seconds [n mod 60] on exactly two characters.  (The bound keeps the
    statement where the program computes what this embedding does: up to
    [2^53] the double quotient [seconds / 60] has the whole part of the
    exact quotient, the remainder by 60 is exact, and whole numbers print in
    plain digits.) *)
Theorem X18_formatTime (seconds : R) :
  0 <= seconds -> seconds < 10 ^ 15 ->
  let n := Math_floor seconds in
  formatTime seconds
  = (JSText.toString (n / 60) ++ ":"
     ++ JSText.padStart 2 "0"%char (JSText.toString (n mod 60)))%string
  /\ String.length (JSText.padStart 2 "0"%char (JSText.toString (n mod 60))) = 2%nat
  /\ (0 <= n / 60)%Z /\ (0 <= n mod 60 < 60)%Z
  /\ (60 * (n / 60) + n mod 60 = n)%Z.
Proof.
  intros H0 _ n.
  assert (Hn : (0 <= n)%Z) by (apply Math_floor_nonneg; assumption).
  assert (Hm : (0 <= n mod 60 < 60)%Z) by (apply Z.mod_pos_bound; lia).
  split; [|split; [|split; [|split]]].
  - unfold formatTime. now rewrite Math_floor_div_60, rem_60_nonneg.
  - now apply two_digits.
  - apply Z.div_pos; lia.
  - exact Hm.
  - symmetry. apply Z.div_mod. lia.
Qed.

Lemma X18_formatTime_witness : formatTime 75 = "1:15"%string.
Proof.
  assert (H0 : 0 <= 75) by lra.
  assert (H1 : 75 < 10 ^ 15) by (cbn [pow]; lra).
  rewrite (proj1 (X18_formatTime H0 H1)).
  rewrite (@Math_floor_spec 75 75) by lra. reflexivity.
Defined.

Lemma toString_negative (m : Z) :
  (m < 0)%Z -> exists rest, JSText.toString m = String "-" rest.
Proof.
  intros H. destruct m as [|p|p]; try lia.
  eexists. reflexivity.
Qed.

Lemma Math_floor_negative (x : R) : x < 0 -> (Math_floor x < 0)%Z.
Proof.
  intros H. destruct (Math_floor_bounds x) as [Hlo _].
  apply lt_IZR. lra.
Qed.

Lemma formatTime_negative (seconds : R) :
  seconds < 0 -> exists rest, formatTime seconds = String "-" rest.
Proof.
  intros H. unfold formatTime.
  destruct (@toString_negative (Math_floor (seconds / 60))) as [rest Hrest].
  - apply Math_floor_negative. lra.
  - rewrite Hrest. eexists. reflexivity.
Qed.

(** X19. [resetTest] sets the current time to 0 and keeps the start time,
    so after the reset of a session started at a positive clock reading the
    elapsed time is negative and the time display begins with a minus sign;
    [formatTime] prints every negative number that way, -5 seconds as
    ["-1:-5"]. *)
Theorem X19_time_after_reset (s : AppState) :
  0 < startTime s ->
  elapsed (resetTest s) = - startTime s / 1000
  /\ (exists rest, displayedTime (resetTest s) = String "-" rest)
  /\ (forall seconds, seconds < 0 ->
                      exists rest, formatTime seconds = String "-" rest)
  /\ formatTime (-5) = "-1:-5"%string.
Proof.
  intros H.
  assert (He : elapsed (resetTest s) = - startTime s / 1000).
  { unfold elapsed. cbn [resetTest currentTime startTime]. lra. }
  split; [exact He | split; [|split]].
  - unfold displayedTime. apply formatTime_negative. rewrite He. lra.
  - apply formatTime_negative.
  - unfold formatTime, JSText.rem, JSText.trunc.
    destruct (Rle_dec 0 (-5 / 60)) as [Hle|_]; [lra|].
    rewrite (@Math_floor_spec (-5 / 60) (-1)) by lra.
    rewrite (@Math_floor_spec (- (-5 / 60)) 0) by lra.
    rewrite (@Math_floor_spec (-5 - 60 * IZR (- 0)) (-5)) by (cbn; lra).
    reflexivity.
Qed.

Lemma X19_time_after_reset_witness :
  exists rest, displayedTime (resetTest early_state) = String "-" rest.
Proof.
  assert (H : 0 < startTime early_state)
    by (change (startTime early_state) with 1000; lra).
  exact (proj1 (proj2 (@X19_time_after_reset early_state H))).
Defined.

End TimeDisplay.
